(** * MyST-NB, [myst_nb/docutils_.py]: the docutils notebook renderer

    A shallow embedding of [DocutilsNbRenderer] (the code-cell renderer, its
    output dispatcher and mime-type resolver, the configuration lookup) and
    of [Parser.parse] (configuration recovery, final notebook write).

    Python dictionaries with string keys are [gmap string _]; lists are
    [list]; exceptions are the type [exn]; the document tree under
    construction and the reporter are threaded as an explicit state which,
    like Python's mutations, survives a raised exception. *)

From Stdlib Require Import ZArith Lia Ascii.
From stdpp Require Import base option list strings gmap.

Set Warnings "-register-all".

Local Open Scope string_scope.
Local Open Scope list_scope.
Local Open Scope Z_scope.

(** ** Exceptions and the renderer monad *)

(** An exception instance.  [TypeError] and [ValueError] carry their
    [args]; [UnicodeEncodeError] is the one [str.encode("utf-8")] raises (a
    [ValueError], through [UnicodeError]; its first argument is the codec
    name); [OtherError] is an instance of any other class, given by the
    name of the class, the names of the classes it derives from, and its
    [args]. *)
Inductive exn : Type :=
| KeyError (key : string)
| IndexError
| AttributeError (attribute : string)
| TypeError (args : list string)
| ValueError (args : list string)
| UnicodeEncodeError
| OtherError (name : string) (bases : list string) (args : list string).

(** A computation over a mutable state [S]: it returns a value or raises,
    and in both cases leaves a state behind. *)
Definition M (S A : Type) : Type := S -> (exn + A) * S.

Definition ret {S A} (a : A) : M S A := fun s => (inr a, s).
Definition raise {S A} (e : exn) : M S A := fun s => (inl e, s).
Definition bind {S A B} (m : M S A) (k : A -> M S B) : M S B :=
  fun s => match m s with
           | (inr a, s') => k a s'
           | (inl e, s') => (inl e, s')
           end.
Definition lift {S A} (r : exn + A) : M S A := fun s => (r, s).

Notation "x <~ m ;; k" := (bind m (fun x => k))
  (at level 100, m at next level, right associativity).
Notation "m ;;; k" := (bind m (fun _ => k))
  (at level 100, right associativity).

(** The [for x in xs: body] loop: stops at the first exception. *)
Fixpoint for_each {S A} (body : A -> M S unit) (xs : list A) : M S unit :=
  match xs with
  | [] => ret tt
  | x :: rest => body x ;;; for_each body rest
  end.

(** ** Configuration values

    [nb_config] is [NbParserConfig.as_dict()]: a dictionary whose values are
    booleans, integers, strings, sequences of strings or [None]. *)

Inductive cfgval : Type :=
| CNone
| CBool (b : bool)
| CInt (z : Z)
| CStr (s : string)
| CStrs (l : list string).

(** Python truth value, as used by [not v] and [if v]. *)
Definition truthy (v : cfgval) : bool :=
  match v with
  | CNone => false
  | CBool b => b
  | CInt z => negb (z =? 0)
  | CStr s => negb (String.eqb s "")
  | CStrs l => match l with [] => false | _ => true end
  end.

Fixpoint chars (s : string) : list string :=
  match s with
  | EmptyString => []
  | String c rest => String c EmptyString :: chars rest
  end.

(** [iter(v)]: sequences yield their items, a string its characters,
    anything else is not iterable. *)
Definition py_iter (v : cfgval) : exn + list string :=
  match v with
  | CStrs l => inr l
  | CStr s => inr (chars s)
  | CNone => inl (TypeError ["'NoneType' object is not iterable"])
  | CBool _ => inl (TypeError ["'bool' object is not iterable"])
  | CInt _ => inl (TypeError ["'int' object is not iterable"])
  end.

(** [DocutilsNbRenderer.get_nb_config]:
    [return self.config["nb_config"][key]]. *)
Definition get_nb_config (nb_config : gmap string cfgval)
    (key : string) (cell_index : option Z) : exn + cfgval :=
  match nb_config !! key with
  | Some v => inr v
  | None => inl (KeyError key)
  end.

(** ** Notebook data *)

(** JSON values: mime payloads and free-form metadata. *)
Inductive json : Type :=
| JNull
| JBool (b : bool)
| JNum (z : Z)
| JStr (s : string)
| JArr (items : list json)
| JObj (members : list (string * json)).

(** One captured output (a [NotebookNode]).  Every output carries
    [output_type]; [name] and [text] exist on streams, [data] on
    display_data and execute_result outputs, so they are optional here and
    reading an absent one raises. *)
Record output : Type := {
  output_type : string;
  name : option string;
  text : option string;
  data : option (gmap string json);
  rest : gmap string json
}.

Record cell : Type := {
  cell_type : string;
  cell_source : string;
  outputs : option (list output)
}.

Record Notebook : Type := {
  cells : list cell;
  notebook_metadata : gmap string json
}.

(** [l[i]] on a Python list: negative indices count from the end. *)
Definition py_index {A} (l : list A) (i : Z) : exn + A :=
  let n := Z.of_nat (length l) in
  let j := if 0 <=? i then i else n + i in
  if (0 <=? j) && (j <? n)
  then match l !! Z.to_nat j with Some a => inr a | None => inl IndexError end
  else inl IndexError.

(** The syntax-tree token of a code cell, as [notebook_to_tokens] builds
    it: [meta["index"]], [meta["metadata"]] (with its optional [tags]),
    [meta["execution_count"]], [meta.get("lexer")], [content], [map]. *)
Record CellMetadata : Type := {
  tags : option (list string);
  metadata_rest : gmap string json
}.

Record SyntaxTreeNode : Type := {
  index : Z;
  metadata : CellMetadata;
  execution_count : option Z;
  lexer : option string;
  content : string;
  map : option (Z * Z)
}.

(** [myst_parser.docutils_renderer.token_line] without a default. *)
Definition token_line (token : SyntaxTreeNode) : exn + Z :=
  match map token with
  | Some (first, _) => inr first
  | None => inl (ValueError ["token map not set"])
  end.

(** [tags = token.meta["metadata"].get("tags", [])]. *)
Definition cell_tags (token : SyntaxTreeNode) : list string :=
  default [] (tags (metadata token)).

(** ** Docutils nodes *)

Inductive attr : Type :=
| ANone
| AInt (z : Z)
| AStr (s : string)
| AStrs (l : list string)
| AMeta (m : CellMetadata).

Inductive node : Type :=
| element (tagname : string) (attributes : gmap string attr)
    (source : option string) (line : option Z) (children : list node).

Definition tagname_of (n : node) : string :=
  match n with element t _ _ _ _ => t end.
Definition attributes_of (n : node) : gmap string attr :=
  match n with element _ a _ _ _ => a end.
Definition children_of (n : node) : list node :=
  match n with element _ _ _ _ c => c end.
Definition line_of (n : node) : option Z :=
  match n with element _ _ _ l _ => l end.

(** [nodes.container] called with keyword attributes. *)
Definition container (attributes : list (string * attr)) : node :=
  element "container" (list_to_map attributes) None None [].

Definition with_children (n : node) (c : list node) : node :=
  match n with element t a s l _ => element t a s l c end.

(** [DocutilsRenderer.add_line_and_source_path], inherited from
    [myst_parser]: [node.line = token_line(token)] unless the token has no
    line, and [node.source = self.document["source"]]. *)
Definition add_line_and_source_path (document_source : string)
    (token : SyntaxTreeNode) (n : node) : node :=
  match n with
  | element t a _ l c =>
      element t a (Some document_source)
        (match token_line token with inr ln => Some ln | inl _ => l end) c
  end.

(** [add_line_and_source_path_r]: the same on a node and all its
    descendants. *)
Fixpoint add_line_and_source_path_r1 (document_source : string)
    (token : SyntaxTreeNode) (n : node) : node :=
  match n with
  | element t a _ l c =>
      element t a (Some document_source)
        (match token_line token with inr ln => Some ln | inl _ => l end)
        (List.map (add_line_and_source_path_r1 document_source token) c)
  end.

Definition add_line_and_source_path_r (document_source : string)
    (token : SyntaxTreeNode) (ns : list node) : list node :=
  List.map (add_line_and_source_path_r1 document_source token) ns.

(** The [nb_element] attribute of a node, if it is a string. *)
Definition nb_element (n : node) : option string :=
  match attributes_of n !! "nb_element" with
  | Some (AStr s) => Some s
  | _ => None
  end.

Definition is_nb_element (kind : string) (n : node) : bool :=
  match nb_element n with
  | Some s => String.eqb s kind
  | None => false
  end.

(** The [mime_type] attribute of the container wrapping a rich output. *)
Definition mime_type_of (n : node) : option string :=
  match attributes_of n !! "mime_type" with
  | Some (AStr s) => Some s
  | _ => None
  end.

(** ** Collaborators of the renderer *)

(** The pluggable element renderer ([NbElementRenderer], loaded by entry
    point): each capability takes the payload, the cell index and the line,
    and returns document nodes. *)
Class NbElementRenderer : Type := {
  render_stdout : output -> Z -> Z -> list node;
  render_stderr : output -> Z -> Z -> list node;
  render_error : output -> Z -> Z -> list node;
  render_mime_type : string -> json -> Z -> Z -> list node
}.

(** What the renderer inherits from the host ([docutils] and
    [myst_parser]): the reporter, which builds the [system_message] node of
    a warning, and the highlighted code block. *)
Class Host : Type := {
  reporter_warning : string -> Z -> node;
  create_highlighted_code_block :
    string -> option string -> cfgval -> string -> Z -> node
}.

(** Names imported from sibling modules of the package. *)
Class Imports : Type := {
  coalesce_streams : list output -> list output;
  DEFAULT_LOG_TYPE : string
}.

(** The renderer object: [self.document["source"]],
    [self.config["nb_config"]] and [self.config["notebook"]]. *)
Record DocutilsNbRenderer : Type := {
  document_source : string;
  config_nb_config : gmap string cfgval;
  config_notebook : Notebook
}.

(** A diagnostic handed to the reporter. *)
Record warning : Type := {
  message : string;
  warning_line : Z;
  wtype : string;
  subtype : string
}.

Definition warning_text (w : warning) : string :=
  message w +:+ " [" +:+ wtype w +:+ "." +:+ subtype w +:+ "]".

(** The mutable part: the children appended so far to the node that is
    [self.current_node] when a method is entered, and the diagnostics
    reported so far.  The state follows the document tree: which node the
    renderer is left in when an exception leaves a method is not tracked
    (no method of this module runs after an exception). *)
Record RenderState : Type := {
  current_node : list node;
  reported : list warning
}.

Definition R := M RenderState.

(** [self.current_node.extend(nodes)]. *)
Definition extend (ns : list node) : R unit :=
  fun st => (inr tt, {| current_node := current_node st ++ ns;
                        reported := reported st |}).

(** [with self.current_node_context(n, append=True): body]: [n] is appended
    to the current node and is the current node while [body] runs.  When
    [body] raises, [n] stays in the tree with the children it has by then
    (the context manager restores the current node on normal exit only;
    the state records the tree, as said above). *)
Definition current_node_context {A} (n : node) (body : R A) : R A :=
  fun st =>
    let '(r, st') := body {| current_node := children_of n;
                             reported := reported st |} in
    (r, {| current_node := current_node st ++ [with_children n (current_node st')];
           reported := reported st' |}).

(** An in-place update of the node appended last to the current node. *)
Definition update_last (f : node -> node) : R unit :=
  fun st =>
    (inr tt,
     {| current_node :=
          match reverse (current_node st) with
          | [] => []
          | n :: before => reverse before ++ [f n]
          end;
        reported := reported st |}).

(** The state before anything is rendered or reported. *)
Definition empty_state : RenderState :=
  {| current_node := []; reported := [] |}.

(** Appending what a computation added. *)
Definition st_app (s d : RenderState) : RenderState :=
  {| current_node := current_node s ++ current_node d;
     reported := reported s ++ reported d |}.

(** A computation is framed when it only appends to the state: run from any
    state, it returns what it returns from the empty state and appends what
    it appends there. *)
Definition framed {A} (m : R A) : Prop :=
  forall s, m s = (fst (m empty_state), st_app s (snd (m empty_state))).

(** [str.replace(' ', '_')]. *)
Fixpoint replace_space (s : string) : string :=
  match s with
  | EmptyString => EmptyString
  | String c s' =>
      String (if Ascii.eqb c " "%char then "_"%char else c) (replace_space s')
  end.

(** [x in tags] on a list of strings. *)
Definition str_in (x : string) (l : list string) : bool :=
  existsb (String.eqb x) l.

(** [next(x for x in mime_priority if x in output["data"])]: [inr None] is
    [StopIteration]; [output["data"]] is evaluated once per candidate. *)
Fixpoint next_mime (mime_priority : list string) (o : output)
    : exn + option string :=
  match mime_priority with
  | [] => inr None
  | x :: candidates =>
      match data o with
      | None => inl (KeyError "data")
      | Some d =>
          match d !! x with
          | Some _ => inr (Some x)
          | None => next_mime candidates o
          end
      end
  end.

(** ** The renderer's methods *)

Section Renderer.
Context {nb_renderer : NbElementRenderer} {host : Host} {imports : Imports}.

(** [DocutilsRenderer.create_warning(message, line=line,
    append_to=self.current_node, wtype=wtype, subtype=subtype)]: the
    warning is reported, and its [system_message] node is appended to the
    current node. *)
Definition create_warning (msg : string) (ln : Z) (wt st : string) : R unit :=
  fun s =>
    let w := {| message := msg; warning_line := ln;
                wtype := wt; subtype := st |} in
    (inr tt, {| current_node :=
                  current_node s ++ [reporter_warning (warning_text w) ln];
                reported := reported s ++ [w] |}).

(** The diagnostic of a rich output with no acceptable representation. *)
Definition mime_type_warning (ln : Z) : warning :=
  {| message := "No output mime type found from render_priority";
     warning_line := ln; wtype := DEFAULT_LOG_TYPE; subtype := "mime_type" |}.

(** The diagnostic of an output of unsupported kind. *)
Definition output_type_warning (kind : string) (ln : Z) : warning :=
  {| message := "Unsupported output type: " +:+ kind;
     warning_line := ln; wtype := DEFAULT_LOG_TYPE; subtype := "output_type" |}.

(** The state change of one reported warning: the diagnostic, and its
    [system_message] node on the current node. *)
Definition warned (w : warning) : RenderState :=
  {| current_node := [reporter_warning (warning_text w) (warning_line w)];
     reported := [w] |}.

(** [output["data"][mime_type]]. *)
Definition data_item (o : output) (mime_type : string) : exn + json :=
  match data o with
  | None => inl (KeyError "data")
  | Some d =>
      match d !! mime_type with
      | Some payload => inr payload
      | None => inl (KeyError mime_type)
      end
  end.

(** The body of the loop [for output in outputs] of
    [render_nb_cell_code_outputs]. *)
Definition render_output (self : DocutilsNbRenderer) (token : SyntaxTreeNode)
    (cell_index ln : Z) (mime_priority : cfgval) (o : output) : R unit :=
  if String.eqb (output_type o) "stream" then
    match name o with
    | None => raise (AttributeError "name")
    | Some nm =>
        if String.eqb nm "stdout" then
          extend (add_line_and_source_path_r (document_source self) token
                    (render_stdout o cell_index ln))
        else if String.eqb nm "stderr" then
          extend (add_line_and_source_path_r (document_source self) token
                    (render_stderr o cell_index ln))
        else ret tt
    end
  else if String.eqb (output_type o) "error" then
    extend (add_line_and_source_path_r (document_source self) token
              (render_error o cell_index ln))
  else if String.eqb (output_type o) "display_data"
          || String.eqb (output_type o) "execute_result" then
    candidates <~ lift (py_iter mime_priority) ;;
    found <~ lift (next_mime candidates o) ;;
    match found with
    | None =>
        create_warning "No output mime type found from render_priority"
          ln DEFAULT_LOG_TYPE "mime_type"
    | Some mime_type =>
        current_node_context (container [("mime_type", AStr mime_type)])
          (payload <~ lift (data_item o mime_type) ;;
           extend (render_mime_type mime_type payload cell_index ln)) ;;;
        update_last (add_line_and_source_path_r1 (document_source self) token)
    end
  else
    create_warning ("Unsupported output type: " +:+ output_type o)
      ln DEFAULT_LOG_TYPE "output_type".

(** [self.config["notebook"]["cells"][cell_index].get("outputs", [])]. *)
Definition cell_outputs (self : DocutilsNbRenderer) (cell_index : Z)
    : exn + list output :=
  match py_index (cells (config_notebook self)) cell_index with
  | inr c => inr (default [] (outputs c))
  | inl e => inl e
  end.

(** [DocutilsNbRenderer.render_nb_cell_code_outputs]. *)
Definition render_nb_cell_code_outputs (self : DocutilsNbRenderer)
    (token : SyntaxTreeNode) : R unit :=
  let cell_index := index token in
  ln <~ lift (token_line token) ;;
  outs <~ lift (cell_outputs self cell_index) ;;
  merge_streams <~
    lift (get_nb_config (config_nb_config self) "merge_streams" (Some cell_index)) ;;
  let outs := if truthy merge_streams then coalesce_streams outs else outs in
  mime_priority <~
    lift (get_nb_config (config_nb_config self) "mime_priority" (Some cell_index)) ;;
  for_each (render_output self token cell_index ln mime_priority) outs.

(** [DocutilsNbRenderer.render_nb_cell_code_source]. *)
Definition render_nb_cell_code_source (self : DocutilsNbRenderer)
    (token : SyntaxTreeNode) : R unit :=
  let cell_index := index token in
  number_lines <~
    lift (get_nb_config (config_nb_config self) "number_source_lines"
            (Some cell_index)) ;;
  ln <~ lift (token_line token) ;;
  let n := create_highlighted_code_block (content token) (lexer token)
             number_lines (document_source self) ln in
  extend [add_line_and_source_path (document_source self) token n].

(** [DocutilsNbRenderer.render_nb_cell_code]. *)
Definition render_nb_cell_code (self : DocutilsNbRenderer)
    (token : SyntaxTreeNode) : R unit :=
  let cell_index := index token in
  let tgs := default [] (tags (metadata token)) in
  let classes := "cell" :: List.map (fun tag => "tag_" +:+ replace_space tag) tgs in
  let cell_container :=
    container [("nb_element", AStr "cell_code");
               ("cell_index", AInt cell_index);
               ("exec_count",
                match execution_count token with Some c => AInt c | None => ANone end);
               ("cell_metadata", AMeta (metadata token));
               ("classes", AStrs classes)] in
  current_node_context
    (add_line_and_source_path (document_source self) token cell_container)
    (remove_code_source <~
       lift (get_nb_config (config_nb_config self) "remove_code_source"
               (Some cell_index)) ;;
     (if negb (truthy remove_code_source)
         && negb (str_in "remove_input" tgs)
         && negb (str_in "remove-input" tgs)
      then
        current_node_context
          (add_line_and_source_path (document_source self) token
             (container [("nb_element", AStr "cell_code_source");
                         ("classes", AStrs ["cell_input"])]))
          (render_nb_cell_code_source self token)
      else ret tt) ;;;
     has_outputs <~ lift (cell_outputs self cell_index) ;;
     show_outputs <~
       (match has_outputs with
        | [] => ret false
        | _ :: _ =>
            remove_code_outputs <~
              lift (get_nb_config (config_nb_config self) "remove_code_outputs"
                      (Some cell_index)) ;;
            ret (negb (truthy remove_code_outputs)
                 && negb (str_in "remove_output" tgs)
                 && negb (str_in "remove-output" tgs))
        end) ;;
     if show_outputs then
       current_node_context
         (add_line_and_source_path (document_source self) token
            (container [("nb_element", AStr "cell_code_output");
                        ("classes", AStrs ["cell_output"])]))
         (render_nb_cell_code_outputs self token)
     else ret tt).

End Renderer.

(** ** [Parser.parse] *)

(** [str.encode("utf-8")] on a string given by its code points: one to four
    bytes per code point; a lone surrogate cannot be encoded. *)
Definition utf8_encode_char (c : Z) : exn + list Z :=
  if c <? 0x80 then inr [c]
  else if c <? 0x800 then
    inr [Z.lor 0xC0 (Z.shiftr c 6); Z.lor 0x80 (Z.land c 0x3F)]
  else if c <? 0x10000 then
    if (0xD800 <=? c) && (c <=? 0xDFFF) then inl UnicodeEncodeError
    else inr [Z.lor 0xE0 (Z.shiftr c 12);
              Z.lor 0x80 (Z.land (Z.shiftr c 6) 0x3F);
              Z.lor 0x80 (Z.land c 0x3F)]
  else
    inr [Z.lor 0xF0 (Z.shiftr c 18);
         Z.lor 0x80 (Z.land (Z.shiftr c 12) 0x3F);
         Z.lor 0x80 (Z.land (Z.shiftr c 6) 0x3F);
         Z.lor 0x80 (Z.land c 0x3F)].

Fixpoint utf8_encode (s : list Z) : exn + list Z :=
  match s with
  | [] => inr []
  | c :: s' =>
      match utf8_encode_char c with
      | inl e => inl e
      | inr bs =>
          match utf8_encode s' with
          | inl e => inl e
          | inr bs' => inr (bs ++ bs')
          end
      end
  end.

(** The calls [parse] itself makes to effectful capabilities, in order. *)
Inductive event (ExecData : Type) : Type :=
| register_directive (directive : string)
| logger_error (msg : string)
| set_nb_exec_data (exec_data : ExecData)
| write_file (path : list string) (content : list Z) (overwrite : bool).
Arguments register_directive {ExecData}.
Arguments logger_error {ExecData}.
Arguments set_nb_exec_data {ExecData}.
Arguments write_file {ExecData}.

(** The collaborators of [parse].  Each stage returns its result or raises;
    a stage that receives the notebook object also returns the notebook as
    it is after the call. *)
Class ParserEnv : Type := {
  Settings : Type;
  MdParserConfig : Type;
  NbParserConfig : Type;
  ExecData : Type;
  MditParser : Type;
  Tokens : Type;
  create_md_config : Settings -> exn + MdParserConfig;
  create_nb_config : Settings -> exn + NbParserConfig;
  default_MdParserConfig : MdParserConfig;
  default_NbParserConfig : NbParserConfig;
  read_as_md : NbParserConfig -> bool;
  render_plugin : NbParserConfig -> string;
  as_dict : NbParserConfig -> gmap string cfgval;
  nb_reader_read : bool -> MdParserConfig -> string -> exn + Notebook;
  update_notebook :
    Notebook -> string -> NbParserConfig -> exn + (Notebook * option ExecData);
  exec_data_truth : ExecData -> bool;
  create_md_parser : MdParserConfig -> exn + MditParser;
  load_renderer : string -> MditParser -> exn + NbElementRenderer;
  notebook_to_tokens : Notebook -> MditParser -> exn + (Tokens * Notebook);
  renderer_render :
    Tokens -> MditParser -> gmap string cfgval -> Notebook ->
    NbElementRenderer -> exn + Notebook;
  nbformat_writes : Notebook -> exn + list Z
}.

(** [args[0]] on the arguments of an exception. *)
Definition first_arg (args : list string) : exn + string :=
  match args with
  | arg0 :: _ => inr arg0
  | [] => inl IndexError
  end.

(** Whether a class, by its name and the names of its bases, is [TypeError]
    or [ValueError] or derives from one of them. *)
Definition derives_type_or_value_error (name : string) (bases : list string)
    : bool :=
  existsb (fun c => String.eqb c "TypeError" || String.eqb c "ValueError")
    (name :: bases).

(** [except (TypeError, ValueError) as error: ... error.args[0]]: [None]
    when the clause does not catch the exception; otherwise what
    [error.args[0]] gives in the handler, which is the [IndexError] it
    raises when the exception has no argument. *)
Definition handled_arg0 (e : exn) : option (exn + string) :=
  match e with
  | TypeError args | ValueError args => Some (first_arg args)
  | UnicodeEncodeError => Some (inr "utf-8")
  | OtherError name bases args =>
      if derives_type_or_value_error name bases then Some (first_arg args)
      else None
  | KeyError _ | IndexError | AttributeError _ => None
  end.

(** The configuration [parse] goes on with: the constructed one, or the
    default when the constructor raises an exception that the handler
    catches and reports. *)
Definition config_or_default {C} (r : exn + C) (d : C) : option C :=
  match r with
  | inr c => Some c
  | inl e =>
      match handled_arg0 e with
      | Some (inr _) => Some d
      | _ => None
      end
  end.

(** The first argument the handler reports. *)
Definition config_error {C} (r : exn + C) : option string :=
  match r with
  | inl e =>
      match handled_arg0 e with
      | Some (inr arg0) => Some arg0
      | _ => None
      end
  | inr _ => None
  end.

Section Parser.
Context {env : ParserEnv}.

Definition P := M (list (event ExecData)).

Definition emit (e : event ExecData) : P unit :=
  fun trace => (inr tt, trace ++ [e]).

(** [try: md_config = create_myst_config(...)
     except (TypeError, ValueError) as error:
       logger.error(f"myst configuration invalid: {error.args[0]}");
       md_config = MdParserConfig()].  The message is built, reading
    [error.args[0]], before [logger.error] is called. *)
Definition get_md_config (settings : Settings) : P MdParserConfig :=
  match create_md_config settings with
  | inr md_config => ret md_config
  | inl error =>
      match handled_arg0 error with
      | None => raise error
      | Some args_0 =>
          arg0 <~ lift args_0 ;;
          emit (logger_error ("myst configuration invalid: " +:+ arg0)) ;;;
          ret default_MdParserConfig
      end
  end.

(** The same for the notebook rendering configuration. *)
Definition get_nb_parser_config (settings : Settings) : P NbParserConfig :=
  match create_nb_config settings with
  | inr nb_config => ret nb_config
  | inl error =>
      match handled_arg0 error with
      | None => raise error
      | Some args_0 =>
          arg0 <~ lift args_0 ;;
          emit (logger_error ("myst-nb configuration invalid: " +:+ arg0)) ;;;
          ret default_NbParserConfig
      end
  end.

(** [parse] from "convert inputstring to notebook" to its end. *)
Definition parse_notebook (inputstring document_source : string)
    (md_config : MdParserConfig) (nb_config : NbParserConfig) : P unit :=
  notebook <~ lift (nb_reader_read (read_as_md nb_config) md_config inputstring) ;;
  updated <~ lift (update_notebook notebook document_source nb_config) ;;
  let '(notebook, exec_data) := updated in
  (match exec_data with
   | Some d => if exec_data_truth d then emit (set_nb_exec_data d) else ret tt
   | None => ret tt
   end) ;;;
  mdit_parser <~ lift (create_md_parser md_config) ;;
  nb_renderer <~ lift (load_renderer (render_plugin nb_config) mdit_parser) ;;
  tokenized <~ lift (notebook_to_tokens notebook mdit_parser) ;;
  let '(mdit_tokens, notebook) := tokenized in
  notebook <~
    lift (renderer_render mdit_tokens mdit_parser (as_dict nb_config)
            notebook nb_renderer) ;;
  text <~ lift (nbformat_writes notebook) ;;
  content <~ lift (utf8_encode text) ;;
  emit (write_file ["rendered.ipynb"] content true).

(** [Parser.parse]. *)
Definition parse (inputstring document_source : string)
    (settings : Settings) : P unit :=
  emit (register_directive "code-cell") ;;;
  emit (register_directive "raw-cell") ;;;
  md_config <~ get_md_config settings ;;
  nb_config <~ get_nb_parser_config settings ;;
  parse_notebook inputstring document_source md_config nb_config.

(** The diagnostic logged for a configuration that failed to build. *)
Definition config_events {C} (prefix : string) (r : exn + C)
    : list (event ExecData) :=
  match config_error r with
  | Some arg0 => [logger_error (prefix +:+ arg0)]
  | None => []
  end.

(** The event of [document["nb_exec_data"] = exec_data]. *)
Definition exec_events (exec_data : option ExecData) : list (event ExecData) :=
  match exec_data with
  | Some d => if exec_data_truth d then [set_nb_exec_data d] else []
  | None => []
  end.

End Parser.

(** ** Concrete collaborators

    A small element renderer, host and parser environment on which the
    methods above can be run. *)

(** Modelled from the spec: [coalesce_streams] of [myst_nb.new.render],
    which is outside this file.  Consecutive stream outputs sharing the
    same name are merged by concatenating their text, at the position of
    the first of the run; nothing else is merged. *)
Definition merge_stream (o o' : output) : option output :=
  match name o, name o', text o, text o' with
  | Some n, Some n', Some t, Some t' =>
      if String.eqb (output_type o) "stream"
         && String.eqb (output_type o') "stream" && String.eqb n n'
      then Some {| output_type := "stream"; name := Some n;
                   text := Some (t +:+ t'); data := data o; rest := rest o |}
      else None
  | _, _, _, _ => None
  end.

Fixpoint coalesce_streams_spec (outs : list output) : list output :=
  match outs with
  | [] => []
  | o :: outs' =>
      match coalesce_streams_spec outs' with
      | [] => [o]
      | o' :: merged =>
          match merge_stream o o' with
          | Some m => m :: merged
          | None => o :: o' :: merged
          end
      end
  end.

Definition leaf (tag : string) (attributes : list (string * attr)) : node :=
  element tag (list_to_map attributes) None None [].

Definition json_text (j : json) : string :=
  match j with JStr s => s | _ => "" end.

Definition text_renderer : NbElementRenderer := {|
  render_stdout o _ _ :=
    [leaf "literal_block" [("classes", AStrs ["output"; "stream"]);
                           ("text", AStr (default "" (text o)))]];
  render_stderr o _ _ :=
    [leaf "literal_block" [("classes", AStrs ["output"; "stderr"]);
                           ("text", AStr (default "" (text o)))]];
  render_error o _ _ :=
    [leaf "literal_block" [("classes", AStrs ["output"; "traceback"])]];
  render_mime_type mime_type payload _ _ :=
    [leaf "literal_block" [("classes", AStrs ["output"; mime_type]);
                           ("text", AStr (json_text payload))]]
|}.

Definition docutils_host : Host := {|
  reporter_warning msg ln :=
    element "system_message"
      (list_to_map [("level", AInt 2); ("type", AStr "WARNING");
                    ("message", AStr msg)])
      None (Some ln) [];
  create_highlighted_code_block text lexer number_lines src ln :=
    leaf "literal_block" [("language", AStr (default "none" lexer));
                          ("text", AStr text)]
|}.

Definition package_imports : Imports := {|
  coalesce_streams := coalesce_streams_spec;
  DEFAULT_LOG_TYPE := "mystnb"
|}.

Definition stream_output (nm txt : string) : output :=
  {| output_type := "stream"; name := Some nm; text := Some txt;
     data := None; rest := ∅ |}.

Definition display_output (kind : string) (d : list (string * json)) : output :=
  {| output_type := kind; name := None; text := None;
     data := Some (list_to_map d); rest := ∅ |}.

Definition code_cell (outs : list output) : cell :=
  {| cell_type := "code"; cell_source := "print(1)"; outputs := Some outs |}.

Definition code_token (i : Z) (tgs : option (list string)) : SyntaxTreeNode :=
  {| index := i;
     metadata := {| tags := tgs; metadata_rest := ∅ |};
     execution_count := Some 1;
     lexer := Some "python";
     content := "print(1)";
     map := Some (3, 5) |}.

(** The default values of the options the renderer reads. *)
Definition default_nb_config : gmap string cfgval :=
  list_to_map [("remove_code_source", CBool false);
               ("remove_code_outputs", CBool false);
               ("number_source_lines", CBool false);
               ("merge_streams", CBool false);
               ("mime_priority",
                CStrs ["text/html"; "image/png"; "text/plain"])].

Definition renderer_of (nb_config : gmap string cfgval) (cs : list cell)
    : DocutilsNbRenderer :=
  {| document_source := "notebook.ipynb";
     config_nb_config := nb_config;
     config_notebook := {| cells := cs; notebook_metadata := ∅ |} |}.

Definition settings_error : string := "'merge_streams' must be of type bool".

(** A parser environment over plain dictionaries. *)
Definition dict_env : ParserEnv := {|
  Settings := gmap string cfgval;
  MdParserConfig := gmap string cfgval;
  NbParserConfig := gmap string cfgval;
  ExecData := Z;
  MditParser := unit;
  Tokens := list SyntaxTreeNode;
  create_md_config s :=
    match s !! "myst_heading_anchors" with
    | None => inr ∅
    | Some (CInt n) => inr {["heading_anchors" := CInt n]}
    | Some _ => inl (ValueError ["'heading_anchors' must be an integer"])
    end;
  create_nb_config s :=
    match s !! "nb_merge_streams" with
    | None => inr default_nb_config
    | Some (CBool b) => inr (<["merge_streams" := CBool b]> default_nb_config)
    | Some _ => inl (TypeError [settings_error])
    end;
  default_MdParserConfig := ∅;
  default_NbParserConfig := default_nb_config;
  read_as_md c := match c !! "read_as_md" with Some v => truthy v | None => false end;
  render_plugin _ := "default";
  as_dict c := c;
  nb_reader_read _ _ inputstring :=
    if String.eqb inputstring ""
    then inl (OtherError "NotJSONError" ["ValueError"]
                ["Notebook does not appear to be JSON"])
    else inr {| cells := [code_cell [stream_output "stdout" "1"]];
                notebook_metadata := ∅ |};
  update_notebook nb _ _ := inr (nb, None);
  exec_data_truth _ := true;
  create_md_parser _ := inr tt;
  load_renderer plugin _ :=
    if String.eqb plugin "default" then inr text_renderer
    else inl (OtherError "EntryPointError" [] ["no such renderer"]);
  notebook_to_tokens nb _ := inr ([code_token 0 None], nb);
  renderer_render _ _ _ nb _ := inr nb;
  nbformat_writes _ := inr [123; 34; 233; 34; 58; 49; 125]
|}.

(** Inputs of the examples. *)
Definition three_priorities : list string :=
  ["text/html"; "image/png"; "text/plain"].

Definition plain_and_png : list (string * json) :=
  [("text/plain", JStr "<Figure>"); ("image/png", JStr "iVBORw0KGgo=")].

Definition code_self (outs : list output) : DocutilsNbRenderer :=
  renderer_of default_nb_config [code_cell outs].

Definition unsupported_output : output :=
  display_output "update_display_data" plain_and_png.

Definition tagged_token : SyntaxTreeNode :=
  code_token 0 (Some ["hide"; "remove-input"; "remove_output"]).

Definition merging_self : DocutilsNbRenderer :=
  renderer_of (<["merge_streams" := CBool true]> default_nb_config)
    [code_cell [stream_output "stdout" "a"; stream_output "stdout" "b";
                display_output "display_data" plain_and_png;
                stream_output "stderr" "x"]].


(** ** Further parts of the module *)

(** [output.output_type in ("display_data", "execute_result")]. *)
Definition is_rich (o : output) : bool :=
  String.eqb (output_type o) "display_data"
  || String.eqb (output_type o) "execute_result".

(** A stream named stdout or stderr, or an error output. *)
Definition is_textual (o : output) : bool :=
  if String.eqb (output_type o) "stream" then
    match name o with
    | Some nm => String.eqb nm "stdout" || String.eqb nm "stderr"
    | None => false
    end
  else String.eqb (output_type o) "error".

(** An output that has the keys its kind is read for: a stream its [name],
    a display_data or execute_result its [data]. *)
Definition well_formed (o : output) : Prop :=
  (output_type o = "stream" -> is_Some (name o))
  /\ (is_rich o = true -> is_Some (data o)).

(** Whether a string contains a space. *)
Fixpoint has_space (s : string) : bool :=
  match s with
  | EmptyString => false
  | String c s' => Ascii.eqb c " "%char || has_space s'
  end.

Definition is_write_file {E} (e : event E) : bool :=
  match e with write_file _ _ _ => true | _ => false end.

Section Dispatch.
Context {nb_renderer : NbElementRenderer}.

(** The nodes the element renderer gives for a textual output. *)
Definition textual_nodes (cell_index ln : Z) (o : output) : list node :=
  if String.eqb (output_type o) "error" then render_error o cell_index ln
  else match name o with
       | Some nm =>
           if String.eqb nm "stdout" then render_stdout o cell_index ln
           else if String.eqb nm "stderr" then render_stderr o cell_index ln
           else []
       | None => []
       end.

End Dispatch.

(** [metadata.pop(key, None)] on a dictionary of JSON values: the value (or
    [None]) and the dictionary without the key. *)
Definition dict_pop (key : string) (d : gmap string json)
    : json * gmap string json :=
  (default JNull (d !! key), delete key d).

(** What [render_nb_metadata] does to the document, in order. *)
Inductive document_event : Type :=
| set_document_item (key : string) (value : json)
| render_front_matter (content : gmap string json).

(** [DocutilsNbRenderer.render_nb_metadata], on [token.meta]. *)
Definition render_nb_metadata (meta : gmap string json) : list document_event :=
  let metadata := meta in
  let '(kernelspec, metadata) := dict_pop "kernelspec" metadata in
  let '(language_info, metadata) := dict_pop "language_info" metadata in
  let '(ipywidgets, metadata) := dict_pop "widgets" metadata in
  [set_document_item "nb_kernelspec" kernelspec;
   set_document_item "nb_language_info" language_info;
   render_front_matter metadata].

(** Further inputs of the examples. *)

(** The imports with a coalescer that drops every output. *)
Definition dropping_imports : Imports := {|
  coalesce_streams := fun _ => [];
  DEFAULT_LOG_TYPE := "mystnb"
|}.

Definition nameless_stream : output :=
  {| output_type := "stream"; name := None; text := Some "lost";
     data := None; rest := ∅ |}.

Definition dataless_result : output :=
  {| output_type := "execute_result"; name := None; text := None;
     data := None; rest := ∅ |}.

Definition error_output : output :=
  {| output_type := "error"; name := None; text := None; data := None;
     rest := {["ename" := JStr "ZeroDivisionError"]} |}.

(** [dict_env] with other constructors of the markdown configuration and
    another serializer. *)
Definition dict_env_with
    (md : gmap string cfgval -> exn + gmap string cfgval)
    (writes : Notebook -> exn + list Z) : ParserEnv := {|
  Settings := gmap string cfgval;
  MdParserConfig := gmap string cfgval;
  NbParserConfig := gmap string cfgval;
  ExecData := Z;
  MditParser := unit;
  Tokens := list SyntaxTreeNode;
  create_md_config := md;
  create_nb_config := @create_nb_config dict_env;
  default_MdParserConfig := ∅;
  default_NbParserConfig := default_nb_config;
  read_as_md := @read_as_md dict_env;
  render_plugin := @render_plugin dict_env;
  as_dict := @as_dict dict_env;
  nb_reader_read := @nb_reader_read dict_env;
  update_notebook := @update_notebook dict_env;
  exec_data_truth := @exec_data_truth dict_env;
  create_md_parser := @create_md_parser dict_env;
  load_renderer := @load_renderer dict_env;
  notebook_to_tokens := @notebook_to_tokens dict_env;
  renderer_render := @renderer_render dict_env;
  nbformat_writes := writes
|}.

(** ** Properties of the renderer monad *)

Lemma st_app_empty_l d : st_app empty_state d = d.
Proof. destruct d; reflexivity. Qed.

Lemma st_app_empty_r s : st_app s empty_state = s.
Proof. destruct s; unfold st_app; simpl; by rewrite !app_nil_r. Qed.

Lemma st_app_assoc a b c : st_app a (st_app b c) = st_app (st_app a b) c.
Proof. unfold st_app; simpl; by rewrite !app_assoc. Qed.

Lemma framed_ret {A} (a : A) : framed (ret a).
Proof. intros s. unfold ret; simpl. by rewrite st_app_empty_r. Qed.

Lemma framed_raise {A} (e : exn) : framed (@raise _ A e).
Proof. intros s. unfold raise; simpl. by rewrite st_app_empty_r. Qed.

Lemma framed_lift {A} (r : exn + A) : framed (lift r).
Proof. intros s. unfold lift; simpl. by rewrite st_app_empty_r. Qed.

Lemma framed_bind {A B} (m : R A) (k : A -> R B) :
  framed m -> (forall a, framed (k a)) -> framed (bind m k).
Proof.
  intros Hm Hk s. unfold bind. rewrite (Hm s).
  destruct (m empty_state) as [[e|a] d]; simpl.
  - reflexivity.
  - rewrite (Hk a (st_app s d)), (Hk a d). simpl.
    by rewrite st_app_assoc.
Qed.

Lemma framed_extend ns : framed (extend ns).
Proof. intros s. unfold extend, st_app; simpl. by rewrite app_nil_r. Qed.

Lemma framed_context {A} n (body : R A) :
  framed body -> framed (current_node_context n body).
Proof.
  intros Hb s. unfold current_node_context.
  rewrite (Hb {| current_node := children_of n; reported := reported s |}).
  rewrite (Hb {| current_node := children_of n; reported := reported empty_state |}).
  destruct (body empty_state) as [r d]; simpl.
  reflexivity.
Qed.

Lemma update_last_snoc f l n rep :
  update_last f {| current_node := l ++ [n]; reported := rep |}
  = (inr tt, {| current_node := l ++ [f n]; reported := rep |}).
Proof.
  unfold update_last; simpl. rewrite reverse_snoc. by rewrite reverse_involutive.
Qed.

(** A context followed by an update of the node it appended. *)
Lemma framed_context_update {A} n (body : R A) f :
  framed body -> framed (current_node_context n body ;;; update_last f).
Proof.
  intros Hb s. unfold bind, current_node_context.
  rewrite (Hb {| current_node := children_of n; reported := reported s |}).
  rewrite (Hb {| current_node := children_of n; reported := reported empty_state |}).
  destruct (body empty_state) as [[e|a] d]; simpl.
  - reflexivity.
  - rewrite update_last_snoc. reflexivity.
Qed.

Lemma framed_for_each {A} (body : A -> R unit) (xs : list A) :
  (forall x, framed (body x)) -> framed (for_each body xs).
Proof.
  intros Hb. induction xs as [|x xs IH]; simpl.
  - apply framed_ret.
  - apply framed_bind; [apply Hb | intros _; exact IH].
Qed.

Lemma for_each_app {S A} (body : A -> M S unit) (xs ys : list A) (s : S) :
  for_each body (xs ++ ys) s = (for_each body xs ;;; for_each body ys) s.
Proof.
  revert s. induction xs as [|x xs IH]; intros s; simpl.
  - reflexivity.
  - unfold bind. destruct (body x s) as [[e|[]] s']; [reflexivity|].
    rewrite IH. reflexivity.
Qed.

(** ** Properties of the output dispatcher *)

Section RendererProperties.
Context {nb_renderer : NbElementRenderer} {host : Host} {imports : Imports}.

Lemma framed_create_warning msg ln wt st : framed (create_warning msg ln wt st).
Proof. intros s. reflexivity. Qed.

Lemma framed_render_output self token cell_index ln mime_priority o :
  framed (render_output self token cell_index ln mime_priority o).
Proof.
  unfold render_output.
  repeat match goal with
         | |- framed (bind (current_node_context _ _) (fun _ => update_last _)) =>
             apply framed_context_update
         | |- framed (bind _ _) => apply framed_bind; [|intros ?]
         | |- framed (if ?b then _ else _) => destruct b
         | |- framed (match ?x with _ => _ end) => destruct x
         end;
    auto using framed_extend, framed_raise, framed_ret, framed_lift,
      framed_create_warning.
Qed.

(** The resolver returns [m] exactly when [m] is the first candidate of the
    priority list that is a key of the data mapping. *)
Lemma next_mime_first (P : list string) (o : output) (D : gmap string json) :
  data o = Some D ->
  forall m, next_mime P o = inr (Some m) <->
    exists pre post, P = pre ++ m :: post /\ m ∈ dom D /\
                     forall x, x ∈ pre -> x ∉ dom D.
Proof.
  intros HD m. induction P as [|x P IH]; simpl.
  - split; [discriminate|]. intros (pre & post & E & _). by destruct pre.
  - rewrite HD. destruct (D !! x) as [v|] eqn:Hx.
    + split.
      * intros [= ->]. exists [], P. split; [done|]. split.
        -- apply elem_of_dom. eauto.
        -- intros y Hy. by apply elem_of_nil in Hy.
      * intros (pre & post & E & Hm & Hpre). destruct pre as [|y pre].
        -- simpl in E. by injection E as -> _.
        -- simpl in E. injection E as -> _.
           exfalso. apply (Hpre y); [by left|]. apply elem_of_dom. eauto.
    + rewrite IH. split.
      * intros (pre & post & -> & Hm & Hpre). exists (x :: pre), post.
        split; [done|]. split; [done|].
        intros y [->|Hy]%elem_of_cons; [|by apply Hpre].
        by apply not_elem_of_dom.
      * intros (pre & post & E & Hm & Hpre). destruct pre as [|y pre].
        -- simpl in E. injection E as -> _.
           apply elem_of_dom in Hm as [v Hv]. congruence.
        -- simpl in E. injection E as -> ->. exists pre, post.
           split; [done|]. split; [done|].
           intros z Hz. apply Hpre. by right.
Qed.

Lemma next_mime_none (P : list string) (o : output) (D : gmap string json) :
  data o = Some D ->
  next_mime P o = inr None <-> forall x, x ∈ P -> x ∉ dom D.
Proof.
  intros HD. induction P as [|x P IH]; simpl.
  - split; [|done]. intros _ y Hy. by apply elem_of_nil in Hy.
  - rewrite HD. destruct (D !! x) as [v|] eqn:Hx.
    + split; [discriminate|]. intros Hall. exfalso.
      apply (Hall x); [by left|]. apply elem_of_dom. eauto.
    + rewrite IH. split.
      * intros Hall y [->|Hy]%elem_of_cons; [|by apply Hall].
        by apply not_elem_of_dom.
      * intros Hall y Hy. apply Hall. by right.
Qed.

(** The resolver reads the data mapping only through its key set. *)
Lemma next_mime_dom (P : list string) (o o' : output) (D D' : gmap string json) :
  data o = Some D -> data o' = Some D' -> dom D' = dom D ->
  next_mime P o' = next_mime P o.
Proof.
  intros HD HD' Hdom. induction P as [|x P IH]; simpl; [done|].
  rewrite HD, HD'.
  destruct (D !! x) as [v|] eqn:Hx.
  - assert (is_Some (D' !! x)) as [v' ->]; [|done].
    apply elem_of_dom. rewrite Hdom. apply elem_of_dom. eauto.
  - assert (D' !! x = None) as ->; [|done].
    apply not_elem_of_dom. rewrite Hdom. by apply not_elem_of_dom.
Qed.

(** What the dispatcher does with a rich output whose mime type resolves. *)
Lemma render_output_mime_found self token cell_index ln P o m payload s :
  (output_type o = "display_data" \/ output_type o = "execute_result") ->
  next_mime P o = inr (Some m) ->
  data_item o m = inr payload ->
  render_output self token cell_index ln (CStrs P) o s
  = (inr tt,
     st_app s
       {| current_node :=
            [add_line_and_source_path_r1 (document_source self) token
               (with_children (container [("mime_type", AStr m)])
                  (render_mime_type m payload cell_index ln))];
          reported := [] |}).
Proof.
  intros Hkind Hnext Hitem.
  rewrite framed_render_output. unfold render_output.
  assert (String.eqb (output_type o) "stream" = false) as ->
    by (destruct Hkind as [-> | ->]; reflexivity).
  assert (String.eqb (output_type o) "error" = false) as ->
    by (destruct Hkind as [-> | ->]; reflexivity).
  assert (String.eqb (output_type o) "display_data"
          || String.eqb (output_type o) "execute_result" = true) as ->
    by (destruct Hkind as [-> | ->]; reflexivity).
  unfold bind, lift; simpl. rewrite Hnext.
  unfold current_node_context, bind, lift; simpl. rewrite Hitem. simpl.
  reflexivity.
Qed.

(** C1.  For every priority list [P] and every output whose data mapping is
    [D], the resolver selects the first element of [P], in priority order,
    that is a key of [D] (and signals none-found exactly when no element of
    [P] is a key); the selection depends on [D] only through its key set,
    hence not on the order in which [D] was filled or is iterated; with
    [P = ["text/html"; "image/png"; "text/plain"]] and the keys
    ["text/plain"] and ["image/png"] it selects ["image/png"]; and for a
    display_data or execute_result output the dispatcher wraps the rendering
    of the selected representation in a container tagged with it. *)
Theorem mime_resolver_priority_order
    (P : list string) (o : output) (D : gmap string json) :
  data o = Some D ->
  (forall m, next_mime P o = inr (Some m) <->
     exists pre post, P = pre ++ m :: post /\ m ∈ dom D /\
                      forall x, x ∈ pre -> x ∉ dom D)
  /\ (next_mime P o = inr None <-> forall x, x ∈ P -> x ∉ dom D)
  /\ (forall o' D', data o' = Some D' -> dom D' = dom D ->
        next_mime P o' = next_mime P o)
  /\ (forall (l l' : list (string * json)) o',
        NoDup l.*1 -> l ≡ₚ l' -> D = list_to_map l ->
        data o' = Some (list_to_map l') ->
        next_mime P o' = next_mime P o)
  /\ (dom D = {["text/plain"; "image/png"]} ->
      next_mime ["text/html"; "image/png"; "text/plain"] o
      = inr (Some "image/png"))
  /\ (forall self token cell_index ln s m,
        (output_type o = "display_data" \/ output_type o = "execute_result") ->
        next_mime P o = inr (Some m) ->
        exists c payload,
          D !! m = Some payload /\
          render_output self token cell_index ln (CStrs P) o s
          = (inr tt, st_app s {| current_node := [c]; reported := [] |}) /\
          mime_type_of c = Some m /\
          children_of c
          = add_line_and_source_path_r (document_source self) token
              (render_mime_type m payload cell_index ln)).
Proof.
  intros HD. repeat split.
  - by apply next_mime_first.
  - by apply next_mime_first.
  - by apply next_mime_none.
  - by apply next_mime_none.
  - intros o' D' HD' Hdom. by apply (next_mime_dom P o o' D D').
  - intros l l' o' Hnodup Hperm -> HD'.
    apply (next_mime_dom P o o' (list_to_map l) (list_to_map l')); try done.
    by rewrite (list_to_map_proper l l').
  - intros Hdom. simpl. rewrite HD.
    assert (D !! "text/html" = None) as ->.
    { apply not_elem_of_dom. rewrite Hdom.
      intros [?%elem_of_singleton|?%elem_of_singleton]%elem_of_union;
        discriminate. }
    assert (is_Some (D !! "image/png")) as [v ->]; [|done].
    apply elem_of_dom. rewrite Hdom.
    apply elem_of_union_r. by apply elem_of_singleton.
  - intros self token cell_index ln s m Hkind Hnext.
    assert (m ∈ dom D) as [payload Hp]%elem_of_dom.
    { apply (next_mime_first P o D HD m) in Hnext as (?&?&?&?&?). done. }
    eexists _, payload. split; [done|]. split.
    + apply render_output_mime_found; try done.
      unfold data_item. by rewrite HD, Hp.
    + split; reflexivity.
Qed.

Lemma render_output_mime_missing self token cell_index ln mime_priority P o D s :
  (output_type o = "display_data" \/ output_type o = "execute_result") ->
  data o = Some D ->
  py_iter mime_priority = inr P ->
  (forall x, x ∈ P -> x ∉ dom D) ->
  render_output self token cell_index ln mime_priority o s
  = (inr tt, st_app s (warned (mime_type_warning ln))).
Proof.
  intros Hkind HD HP Hnone.
  apply (next_mime_none P o D HD) in Hnone.
  rewrite framed_render_output. unfold render_output.
  assert (String.eqb (output_type o) "stream" = false) as ->
    by (destruct Hkind as [-> | ->]; reflexivity).
  assert (String.eqb (output_type o) "error" = false) as ->
    by (destruct Hkind as [-> | ->]; reflexivity).
  assert (String.eqb (output_type o) "display_data"
          || String.eqb (output_type o) "execute_result" = true) as ->
    by (destruct Hkind as [-> | ->]; reflexivity).
  unfold bind, lift; simpl. rewrite HP, Hnone. reflexivity.
Qed.

Lemma render_output_unsupported self token cell_index ln mime_priority o s :
  output_type o <> "stream" -> output_type o <> "error" ->
  output_type o <> "display_data" -> output_type o <> "execute_result" ->
  render_output self token cell_index ln mime_priority o s
  = (inr tt, st_app s (warned (output_type_warning (output_type o) ln))).
Proof.
  intros H1%String.eqb_neq H2%String.eqb_neq H3%String.eqb_neq H4%String.eqb_neq.
  rewrite framed_render_output. unfold render_output.
  rewrite H1, H2, H3, H4. reflexivity.
Qed.

Lemma render_output_unknown_stream self token cell_index ln mime_priority o nm s :
  output_type o = "stream" -> name o = Some nm ->
  nm <> "stdout" -> nm <> "stderr" ->
  render_output self token cell_index ln mime_priority o s = (inr tt, s).
Proof.
  intros Hk Hn H1%String.eqb_neq H2%String.eqb_neq.
  unfold render_output. rewrite Hk, Hn. simpl. rewrite H1, H2. reflexivity.
Qed.

(** A skipped output in the middle of a sequence: the outputs before it and
    after it are processed as usual. *)
Lemma for_each_middle {A} (body : A -> R unit) pre x post d s :
  (forall s, body x s = (inr tt, st_app s d)) ->
  for_each body (pre ++ x :: post) s
  = (for_each body pre ;;; (fun s => for_each body post (st_app s d))) s.
Proof.
  intros Hx. rewrite for_each_app. unfold bind.
  destruct (for_each body pre s) as [[e|[]] s1]; [done|].
  simpl. unfold bind. by rewrite Hx.
Qed.

(** C2, amended.  A display_data or execute_result output whose data
    mapping has no key in the priority list makes the dispatcher report
    exactly one diagnostic (message "No output mime type found from
    render_priority", subtype ["mime_type"]) and append the
    [system_message] node of that diagnostic to the current node; no render
    capability contributes a node and no container is added.  The outputs
    after it are then processed, with the result and the nodes and
    diagnostics they have when processed on their own. *)
Theorem mime_type_not_found_warns_and_continues
    self token cell_index ln mime_priority (P : list string)
    (o : output) (D : gmap string json) (pre post : list output) s :
  (output_type o = "display_data" \/ output_type o = "execute_result") ->
  data o = Some D ->
  py_iter mime_priority = inr P ->
  (forall x, x ∈ P -> x ∉ dom D) ->
  let body := render_output self token cell_index ln mime_priority in
  let w := mime_type_warning ln in
  body o s
  = (inr tt,
     {| current_node :=
          current_node s ++ [reporter_warning (warning_text w) ln];
        reported := reported s ++ [w] |})
  /\ subtype w = "mime_type"
  /\ for_each body (pre ++ o :: post) s
     = (for_each body pre ;;;
        (fun s1 => for_each body post (st_app s1 (warned w)))) s
  /\ (forall s1,
        for_each body post (st_app s1 (warned w))
        = (fst (for_each body post empty_state),
           st_app (st_app s1 (warned w))
             (snd (for_each body post empty_state)))).
Proof.
  intros Hkind HD HP Hnone body w.
  assert (forall s, body o s = (inr tt, st_app s (warned w))) as Hbody.
  { intros s0. by apply (render_output_mime_missing _ _ _ _ _ P o D). }
  split; [apply Hbody|]. split; [reflexivity|]. split.
  - by apply for_each_middle.
  - intros s1. apply framed_for_each. intros x. apply framed_render_output.
Qed.

(** C3 (the code at the failing input).  A stream output named ["stdin"] is
    skipped without a trace: the state is unchanged, so no node is produced
    and no diagnostic is reported. *)
Theorem unknown_stream_name_is_silent self token cell_index ln mime_priority s :
  render_output self token cell_index ln mime_priority
    (stream_output "stdin" "42") s
  = (inr tt, s)
  /\ reported
       (snd (render_output self token cell_index ln mime_priority
               (stream_output "stdin" "42") s))
     = reported s.
Proof.
  assert (render_output self token cell_index ln mime_priority
            (stream_output "stdin" "42") s = (inr tt, s)) as E.
  { by apply (render_output_unknown_stream _ _ _ _ _ _ "stdin"). }
  split; [exact E|]. by rewrite E.
Qed.

(** C4, amended.  An output whose kind is none of stream, error,
    display_data and execute_result makes the dispatcher report one
    diagnostic (message "Unsupported output type: " followed by the kind,
    subtype ["output_type"]) and append the [system_message] node of that
    diagnostic to the current node; no render capability contributes a node
    and no container is added.  The outputs after it are then processed,
    with the result, nodes and diagnostics they have on their own. *)
Theorem unsupported_output_type_warns_and_continues
    self token cell_index ln mime_priority
    (o : output) (pre post : list output) s :
  output_type o <> "stream" -> output_type o <> "error" ->
  output_type o <> "display_data" -> output_type o <> "execute_result" ->
  let body := render_output self token cell_index ln mime_priority in
  let w := output_type_warning (output_type o) ln in
  body o s
  = (inr tt,
     {| current_node :=
          current_node s ++ [reporter_warning (warning_text w) ln];
        reported := reported s ++ [w] |})
  /\ subtype w = "output_type"
  /\ for_each body (pre ++ o :: post) s
     = (for_each body pre ;;;
        (fun s1 => for_each body post (st_app s1 (warned w)))) s
  /\ (forall s1,
        for_each body post (st_app s1 (warned w))
        = (fst (for_each body post empty_state),
           st_app (st_app s1 (warned w))
             (snd (for_each body post empty_state)))).
Proof.
  intros H1 H2 H3 H4 body w.
  assert (forall s, body o s = (inr tt, st_app s (warned w))) as Hbody.
  { intros s0. by apply render_output_unsupported. }
  split; [apply Hbody|]. split; [reflexivity|]. split.
  - by apply for_each_middle.
  - intros s1. apply framed_for_each. intros x. apply framed_render_output.
Qed.

(** ** Properties of the cell renderer *)

Lemma framed_render_nb_cell_code_outputs self token :
  framed (render_nb_cell_code_outputs self token).
Proof.
  unfold render_nb_cell_code_outputs.
  repeat (apply framed_bind; [apply framed_lift | intros ?]).
  apply framed_for_each. intros o. apply framed_render_output.
Qed.
Ltac split_bools :=
  repeat match goal with
         | Hb : _ && _ = true |- _ => apply andb_prop in Hb as [? ?]
         | Hb : negb _ = true |- _ => apply negb_true_iff in Hb
         end.

Ltac pick_parts :=
  lazymatch goal with
  | |- exists cc src out, _ ++ [element _ _ _ _ ?ch] = _ /\ _ =>
      lazymatch ch with
      | [] => eexists _, [], []
      | [?x; ?y] => eexists _, [x], [y]
      | [?x] =>
          lazymatch x with
          | element _ (insert "nb_element" (AStr "cell_code_source") _) _ _ _ =>
              eexists _, [x], []
          | _ => eexists _, [], [x]
          end
      end
  end.

Lemma render_nb_cell_code_shape self token s :
  let tgs := default [] (tags (metadata token)) in
  exists cc src_part out_part,
    current_node (snd (render_nb_cell_code self token s)) = current_node s ++ [cc]
    /\ nb_element cc = Some "cell_code"
    /\ children_of cc = src_part ++ out_part
    /\ (src_part = [] \/
        exists n rcs,
          src_part = [n] /\ nb_element n = Some "cell_code_source"
          /\ get_nb_config (config_nb_config self) "remove_code_source"
               (Some (index token)) = inr rcs
          /\ truthy rcs = false
          /\ str_in "remove_input" tgs = false
          /\ str_in "remove-input" tgs = false)
    /\ (out_part = [] \/
        exists n outs rco,
          out_part = [n] /\ nb_element n = Some "cell_code_output"
          /\ cell_outputs self (index token) = inr outs /\ outs <> []
          /\ get_nb_config (config_nb_config self) "remove_code_outputs"
               (Some (index token)) = inr rco
          /\ truthy rco = false
          /\ str_in "remove_output" tgs = false
          /\ str_in "remove-output" tgs = false
          /\ children_of n
             = current_node (snd (render_nb_cell_code_outputs self token empty_state))).
Proof.
  intros tgs. unfold render_nb_cell_code. fold tgs.
  pose proof (framed_render_nb_cell_code_outputs self token) as Hfo.
  generalize dependent (render_nb_cell_code_outputs self token).
  generalize (render_nb_cell_code_source self token).
  intros msrc mout Hfo.
  set (exec_count := match execution_count token with
                     | Some c => AInt c | None => ANone end).
  unfold current_node_context, bind, lift, ret.
  repeat case_match; simplify_eq/=.
  all: try (rewrite Hfo in *; simplify_eq/=).
  all: split_bools.
  all: pick_parts.
  all: split; [reflexivity|]; split; [reflexivity|]; split; [reflexivity|].
  all: split; [first [by left | right; eexists _, _; by repeat split] |].
  all: first [by left | right; eexists _, _, _; by repeat split].
Qed.

Lemma str_in_elem_of (x : string) (l : list string) :
  str_in x l = true <-> x ∈ l.
Proof.
  unfold str_in. rewrite existsb_exists. split.
  - intros (y & Hy & ->%String.eqb_eq). by apply list_elem_of_In.
  - intros Hx. exists x. split; [by apply list_elem_of_In | apply String.eqb_refl].
Qed.

(** The nodes appended while the outputs are rendered are the blocks of the
    outputs, in the order of the sequence, up to the output that raised. *)
Lemma for_each_blocks {A} (body : A -> R unit) (xs : list A) :
  (forall x, framed (body x)) ->
  exists k,
    current_node (snd (for_each body xs empty_state))
    = flat_map (fun x => current_node (snd (body x empty_state))) (take k xs)
    /\ (fst (for_each body xs empty_state) = inr tt -> k = length xs).
Proof.
  intros Hb. induction xs as [|x xs (k & IH & Hk)].
  - exists 0%nat. by split.
  - simpl. unfold bind. destruct (body x empty_state) as [[e|[]] d] eqn:Hx.
    + exists 1%nat. simpl. rewrite Hx. simpl. destruct xs; simpl;
        by rewrite app_nil_r.
    + exists (S k). rewrite (framed_for_each body xs Hb d). simpl.
      rewrite Hx. simpl. rewrite IH. split; [done|].
      intros Hok. by rewrite (Hk Hok).
Qed.

(** C5.  In the container of a code cell, a source-suppressing tag
    ([remove_input] or [remove-input]) leaves no source container and an
    output-suppressing tag ([remove_output] or [remove-output]) leaves no
    output container, for every configuration and whatever the outputs of
    the cell: the tag wins over the global default. *)
Theorem tag_override_wins self token s :
  exists cc,
    current_node (snd (render_nb_cell_code self token s)) = current_node s ++ [cc]
    /\ (("remove_input" ∈ cell_tags token \/ "remove-input" ∈ cell_tags token) ->
        Forall (fun n => is_nb_element "cell_code_source" n = false)
          (children_of cc))
    /\ (("remove_output" ∈ cell_tags token \/ "remove-output" ∈ cell_tags token) ->
        Forall (fun n => is_nb_element "cell_code_output" n = false)
          (children_of cc)).
Proof.
  destruct (render_nb_cell_code_shape self token s)
    as (cc & src & out & Hcc & _ & Hch & Hsrc & Hout).
  exists cc. split; [done|]. rewrite Hch. split.
  - intros Htag. apply Forall_app. split.
    + destruct Hsrc as [-> | (n & rcs & _ & _ & _ & _ & H1 & H2)]; [constructor|].
      exfalso. destruct Htag as [Ht|Ht]; apply str_in_elem_of in Ht;
        unfold cell_tags in Ht; congruence.
    + destruct Hout as [-> | (n & ? & ? & -> & Hn & _)]; [constructor|].
      repeat constructor. unfold is_nb_element. by rewrite Hn.
  - intros Htag. apply Forall_app. split.
    + destruct Hsrc as [-> | (n & ? & -> & Hn & _)]; [constructor|].
      repeat constructor. unfold is_nb_element. by rewrite Hn.
    + destruct Hout as [-> | (n & ? & ? & _ & _ & _ & _ & _ & _ & H1 & H2 & _)];
        [constructor|].
      exfalso. destruct Htag as [Ht|Ht]; apply str_in_elem_of in Ht;
        unfold cell_tags in Ht; congruence.
Qed.

(** C6.  A code cell whose output sequence is empty gets no output
    container among the children of its cell container, for every
    configuration and every tag set. *)
Theorem no_outputs_no_output_container self token s :
  cell_outputs self (index token) = inr [] ->
  exists cc,
    current_node (snd (render_nb_cell_code self token s)) = current_node s ++ [cc]
    /\ Forall (fun n => is_nb_element "cell_code_output" n = false)
         (children_of cc).
Proof.
  intros Hempty.
  destruct (render_nb_cell_code_shape self token s)
    as (cc & src & out & Hcc & _ & Hch & Hsrc & Hout).
  exists cc. split; [done|]. rewrite Hch. apply Forall_app. split.
  - destruct Hsrc as [-> | (n & ? & -> & Hn & _)]; [constructor|].
    repeat constructor. unfold is_nb_element. by rewrite Hn.
  - destruct Hout as [-> | (n & outs & ? & _ & _ & Houts & Hne & _)];
      [constructor|].
    congruence.
Qed.

(** C7.  The children of a cell container are the source container, if
    any, followed by the output container, if any; and the children of the
    output container are the node blocks of the outputs of the (coalesced)
    sequence, concatenated in the order of that sequence (all of them when
    rendering succeeds, a prefix when an output raises). *)
Theorem cell_nodes_in_order self token s :
  (exists cc src_part out_part,
     current_node (snd (render_nb_cell_code self token s)) = current_node s ++ [cc]
     /\ children_of cc = src_part ++ out_part
     /\ (src_part = [] \/
         exists n, src_part = [n] /\ nb_element n = Some "cell_code_source")
     /\ (out_part = [] \/
         exists n, out_part = [n] /\ nb_element n = Some "cell_code_output"
           /\ children_of n
              = current_node
                  (snd (render_nb_cell_code_outputs self token empty_state))))
  /\ (forall ln outs merge_streams mime_priority,
        token_line token = inr ln ->
        cell_outputs self (index token) = inr outs ->
        get_nb_config (config_nb_config self) "merge_streams"
          (Some (index token)) = inr merge_streams ->
        get_nb_config (config_nb_config self) "mime_priority"
          (Some (index token)) = inr mime_priority ->
        let coalesced :=
          if truthy merge_streams then coalesce_streams outs else outs in
        let block o :=
          current_node
            (snd (render_output self token (index token) ln mime_priority o
                    empty_state)) in
        exists k,
          current_node (snd (render_nb_cell_code_outputs self token empty_state))
          = flat_map block (take k coalesced)
          /\ (fst (render_nb_cell_code_outputs self token empty_state) = inr tt ->
              k = length coalesced)).
Proof.
  split.
  - destruct (render_nb_cell_code_shape self token s)
      as (cc & src & out & Hcc & _ & Hch & Hsrc & Hout).
    exists cc, src, out. split; [done|]. split; [done|]. split.
    + destruct Hsrc as [-> | (n & ? & -> & Hn & _)]; eauto.
    + destruct Hout as [-> | (n & ? & ? & -> & Hn & _ & _ & _ & _ & _ & _ & Hc)];
        eauto.
  - intros ln outs merge_streams mime_priority Hln Houts Hmerge Hprio
      coalesced block.
    unfold render_nb_cell_code_outputs, bind, lift.
    rewrite Hln, Houts, Hmerge, Hprio.
    apply for_each_blocks. intros o. apply framed_render_output.
Qed.

(** C10.  The configuration lookup does not depend on the cell index: for
    every dictionary, every key and any two cell indices (or none) the
    result is the same, be it a value or the [KeyError]. *)
Theorem get_nb_config_ignores_cell_index
    (nb_config : gmap string cfgval) (key : string) (i j : option Z) :
  get_nb_config nb_config key i = get_nb_config nb_config key j.
Proof. reflexivity. Qed.

End RendererProperties.

(** ** Properties of [Parser.parse] *)

(** Text in the ASCII range is encoded as itself. *)
Lemma utf8_encode_ascii (s : list Z) :
  Forall (fun c => 0 <= c < 128) s -> utf8_encode s = inr s.
Proof.
  induction 1 as [|c s Hc _ IH]; simpl; [done|].
  unfold utf8_encode_char.
  destruct (Z.ltb_spec c 128) as [_|?]; [|lia].
  by rewrite IH.
Qed.

(** One code point of each length, and a lone surrogate. *)
Lemma utf8_encode_samples :
  utf8_encode [0x24] = inr [0x24]
  /\ utf8_encode [0xA3] = inr [0xC2; 0xA3]
  /\ utf8_encode [0x20AC] = inr [0xE2; 0x82; 0xAC]
  /\ utf8_encode [0x10348] = inr [0xF0; 0x90; 0x8D; 0x88]
  /\ utf8_encode [0xD800] = inl UnicodeEncodeError.
Proof. repeat split. Qed.

Section ParserProperties.
Context {env : ParserEnv}.



Lemma get_md_config_spec settings trace :
  get_md_config settings trace
  = (match config_or_default (create_md_config settings) default_MdParserConfig with
     | Some c => inr c
     | None => match create_md_config settings with
               | inl e => inl (match handled_arg0 e with
                               | Some (inl e') => e'
                               | _ => e
                               end)
               | inr c => inr c
               end
     end,
     trace ++ config_events "myst configuration invalid: "
                (create_md_config settings)).
Proof.
  unfold get_md_config, config_events, config_error, config_or_default.
  destruct (create_md_config settings) as [e|c]; simpl;
    [destruct (handled_arg0 e) as [[e'|a]|]|]; simpl;
    by rewrite ?app_nil_r.
Qed.

Lemma get_nb_parser_config_spec settings trace :
  get_nb_parser_config settings trace
  = (match config_or_default (create_nb_config settings) default_NbParserConfig with
     | Some c => inr c
     | None => match create_nb_config settings with
               | inl e => inl (match handled_arg0 e with
                               | Some (inl e') => e'
                               | _ => e
                               end)
               | inr c => inr c
               end
     end,
     trace ++ config_events "myst-nb configuration invalid: "
                (create_nb_config settings)).
Proof.
  unfold get_nb_parser_config, config_events, config_error, config_or_default.
  destruct (create_nb_config settings) as [e|c]; simpl;
    [destruct (handled_arg0 e) as [[e'|a]|]|]; simpl;
    by rewrite ?app_nil_r.
Qed.

Lemma config_or_default_None {C} (r : exn + C) d :
  config_or_default r d = None -> exists e, r = inl e.
Proof. destruct r; [eauto | discriminate]. Qed.

(** [parse_notebook] returns normally exactly when every stage does, and
    then its last call is the write of the encoded notebook. *)
Lemma parse_notebook_ok inputstring document_source md_config nb_config trace :
  fst (parse_notebook inputstring document_source md_config nb_config trace)
  = inr tt <->
  exists notebook updated exec_data mdit_parser nb_renderer
         mdit_tokens tokenized rendered text content,
    nb_reader_read (read_as_md nb_config) md_config inputstring = inr notebook
    /\ update_notebook notebook document_source nb_config
       = inr (updated, exec_data)
    /\ create_md_parser md_config = inr mdit_parser
    /\ load_renderer (render_plugin nb_config) mdit_parser = inr nb_renderer
    /\ notebook_to_tokens updated mdit_parser = inr (mdit_tokens, tokenized)
    /\ renderer_render mdit_tokens mdit_parser (as_dict nb_config) tokenized
         nb_renderer = inr rendered
    /\ nbformat_writes rendered = inr text
    /\ utf8_encode text = inr content
    /\ snd (parse_notebook inputstring document_source md_config nb_config trace)
       = trace ++ exec_events exec_data
           ++ [write_file ["rendered.ipynb"] content true].
Proof.
  assert (forall (ed : option ExecData) tr,
            match ed with
            | Some d => if exec_data_truth d then emit (set_nb_exec_data d)
                        else ret tt
            | None => ret tt
            end tr = (inr tt, tr ++ exec_events ed)) as Hexec.
  { intros [d|] tr; simpl; [destruct (exec_data_truth d)|];
      unfold emit, ret; by rewrite ?app_nil_r. }
  unfold parse_notebook, bind, lift. split.
  - intros Hok.
    destruct (nb_reader_read _ _ _) as [?|notebook] eqn:E1; [done|].
    destruct (update_notebook _ _ _) as [?|[updated ed]] eqn:E2; [done|].
    rewrite Hexec in Hok |- *.
    destruct (create_md_parser _) as [?|mdit_parser] eqn:E3; [done|].
    destruct (load_renderer _ _) as [?|nb_renderer] eqn:E4; [done|].
    destruct (notebook_to_tokens _ _) as [?|[toks tokenized]] eqn:E5; [done|].
    destruct (renderer_render _ _ _ _ _) as [?|rendered] eqn:E6; [done|].
    destruct (nbformat_writes _) as [?|text] eqn:E7; [done|].
    destruct (utf8_encode _) as [?|content] eqn:E8; [done|].
    exists notebook, updated, ed, mdit_parser, nb_renderer, toks, tokenized,
      rendered, text, content.
    repeat (split; [done|]). unfold emit; simpl. by rewrite <- app_assoc.
  - intros (notebook & updated & ed & mdit_parser & nb_renderer & toks
            & tokenized & rendered & text & content
            & E1 & E2 & E3 & E4 & E5 & E6 & E7 & E8 & _).
    rewrite E1, E2, Hexec, E3, E4, E5, E6, E7, E8. reflexivity.
Qed.

Lemma parse_continues inputstring document_source settings md_config nb_config trace :
  config_or_default (create_md_config settings) default_MdParserConfig
    = Some md_config ->
  config_or_default (create_nb_config settings) default_NbParserConfig
    = Some nb_config ->
  parse inputstring document_source settings trace
  = parse_notebook inputstring document_source md_config nb_config
      (trace ++ [register_directive "code-cell"; register_directive "raw-cell"]
         ++ config_events "myst configuration invalid: "
              (create_md_config settings)
         ++ config_events "myst-nb configuration invalid: "
              (create_nb_config settings)).
Proof.
  intros Hmd Hnb. unfold parse, bind, emit.
  rewrite get_md_config_spec, Hmd, get_nb_parser_config_spec, Hnb.
  f_equal. rewrite <- !app_assoc. reflexivity.
Qed.


(** C9.  [parse] returns normally exactly when every stage does, and then
    the last thing it does is one call of [write_file], with the fixed
    relative path [rendered.ipynb], the UTF-8 encoding of the text that
    [nbformat.writes] gives for the notebook as it is after rendering, and
    [overwrite=True]; it writes no other file. *)
Theorem parse_writes_rendered_notebook
    inputstring document_source settings trace :
  fst (parse inputstring document_source settings trace) = inr tt <->
  exists md_config nb_config notebook updated exec_data mdit_parser nb_renderer
         mdit_tokens tokenized rendered text content,
    config_or_default (create_md_config settings) default_MdParserConfig
      = Some md_config
    /\ config_or_default (create_nb_config settings) default_NbParserConfig
      = Some nb_config
    /\ nb_reader_read (read_as_md nb_config) md_config inputstring = inr notebook
    /\ update_notebook notebook document_source nb_config
       = inr (updated, exec_data)
    /\ create_md_parser md_config = inr mdit_parser
    /\ load_renderer (render_plugin nb_config) mdit_parser = inr nb_renderer
    /\ notebook_to_tokens updated mdit_parser = inr (mdit_tokens, tokenized)
    /\ renderer_render mdit_tokens mdit_parser (as_dict nb_config) tokenized
         nb_renderer = inr rendered
    /\ nbformat_writes rendered = inr text
    /\ utf8_encode text = inr content
    /\ snd (parse inputstring document_source settings trace)
       = trace
           ++ [register_directive "code-cell"; register_directive "raw-cell"]
           ++ config_events "myst configuration invalid: "
                (create_md_config settings)
           ++ config_events "myst-nb configuration invalid: "
                (create_nb_config settings)
           ++ exec_events exec_data
           ++ [write_file ["rendered.ipynb"] content true].
Proof.
  destruct (config_or_default (create_md_config settings) default_MdParserConfig)
    as [md_config|] eqn:Hmd.
  2: { split.
       - apply config_or_default_None in Hmd as He. destruct He as [e He].
         unfold parse, bind, emit. rewrite get_md_config_spec, Hmd, He.
         discriminate.
       - intros (? & ? & ? & ? & ? & ? & ? & ? & ? & ? & ? & ? & [=] & _). }
  destruct (config_or_default (create_nb_config settings) default_NbParserConfig)
    as [nb_config|] eqn:Hnb.
  2: { split.
       - apply config_or_default_None in Hnb as He. destruct He as [e He].
         unfold parse, bind, emit.
         rewrite get_md_config_spec, Hmd, get_nb_parser_config_spec, Hnb, He.
         discriminate.
       - intros (? & ? & ? & ? & ? & ? & ? & ? & ? & ? & ? & ? & _ & [=] & _). }
  rewrite (parse_continues _ _ _ md_config nb_config) by done.
  rewrite parse_notebook_ok. split.
  - intros (notebook & updated & ed & mdit_parser & nb_renderer & toks
            & tokenized & rendered & text & content
            & E1 & E2 & E3 & E4 & E5 & E6 & E7 & E8 & Etr).
    exists md_config, nb_config, notebook, updated, ed, mdit_parser,
      nb_renderer, toks, tokenized, rendered, text, content.
    repeat (split; [done|]). rewrite Etr. by rewrite <- !app_assoc.
  - intros (md' & nb' & notebook & updated & ed & mdit_parser & nb_renderer
            & toks & tokenized & rendered & text & content
            & [= <-] & [= <-] & E1 & E2 & E3 & E4 & E5 & E6 & E7 & E8 & Etr).
    exists notebook, updated, ed, mdit_parser, nb_renderer, toks, tokenized,
      rendered, text, content.
    repeat (split; [done|]). rewrite Etr. by rewrite <- !app_assoc.
Qed.

End ParserProperties.

(** ** Further properties of the output dispatcher *)

Section DispatcherProperties.
Context {nb_renderer : NbElementRenderer} {host : Host} {imports : Imports}.

Lemma render_output_textual self token cell_index ln mime_priority o s :
  is_textual o = true ->
  render_output self token cell_index ln mime_priority o s
  = (inr tt,
     {| current_node :=
          current_node s
          ++ add_line_and_source_path_r (document_source self) token
               (textual_nodes cell_index ln o);
        reported := reported s |}).
Proof.
  unfold is_textual, render_output, textual_nodes. intros Ht.
  destruct (String.eqb (output_type o) "stream") eqn:Hs.
  - apply String.eqb_eq in Hs. rewrite Hs. simpl.
    destruct (name o) as [nm|]; [|done].
    destruct (String.eqb nm "stdout"); [done|].
    simpl in Ht. by rewrite Ht.
  - by rewrite Ht.
Qed.

(** X1.  A sequence of textual outputs (stdout and stderr streams, errors)
    is rendered without exception and without diagnostic; the nodes
    appended are those of the element renderer, output by output in the
    order of the sequence, each with line and source set; the mime
    priority plays no part. *)
Theorem textual_outputs_render_in_order
    self token cell_index ln mime_priority (outs : list output) s :
  Forall (fun o => is_textual o = true) outs ->
  for_each (render_output self token cell_index ln mime_priority) outs s
  = (inr tt,
     {| current_node :=
          current_node s
          ++ add_line_and_source_path_r (document_source self) token
               (flat_map (textual_nodes cell_index ln) outs);
        reported := reported s |}).
Proof.
  intros Hall. revert s. induction Hall as [|o outs Ho _ IH]; intros s.
  - simpl. unfold ret. destruct s; simpl. by rewrite app_nil_r.
  - simpl. unfold bind. rewrite render_output_textual by done.
    rewrite IH. simpl. unfold add_line_and_source_path_r.
    by rewrite List.map_app, app_assoc.
Qed.

Lemma next_mime_total (P : list string) (o : output) D :
  data o = Some D -> exists r, next_mime P o = inr r.
Proof.
  intros HD. induction P as [|x P IH]; simpl; [eauto|].
  rewrite HD. destruct (D !! x); eauto.
Qed.

Lemma render_output_well_formed self token cell_index ln mime_priority P o :
  py_iter mime_priority = inr P -> well_formed o ->
  fst (render_output self token cell_index ln mime_priority o empty_state)
  = inr tt.
Proof.
  intros HP [Hname Hdata]. unfold render_output.
  destruct (String.eqb (output_type o) "stream") eqn:Hs.
  { apply String.eqb_eq in Hs. destruct (Hname Hs) as [nm ->].
    by repeat case_match. }
  destruct (String.eqb (output_type o) "error"); [done|].
  fold (is_rich o). destruct (is_rich o) eqn:Hr; [|done].
  destruct (Hdata eq_refl) as [D HD].
  unfold bind, lift. rewrite HP.
  destruct (next_mime_total P o D HD) as [[m|] Hnext]; rewrite Hnext; [|done].
  apply (next_mime_first P o D HD m) in Hnext as (_ & _ & _ & Hm & _).
  apply elem_of_dom in Hm as [payload Hm].
  unfold current_node_context, bind, lift, data_item. by rewrite HD, Hm.
Qed.

(** X2.  When the mime priority is iterable and every output has the keys
    its kind is read for, the dispatcher renders the whole sequence without
    raising, from any state. *)
Theorem well_formed_outputs_never_raise
    self token cell_index ln mime_priority P (outs : list output) s :
  py_iter mime_priority = inr P ->
  Forall well_formed outs ->
  fst (for_each (render_output self token cell_index ln mime_priority) outs s)
  = inr tt.
Proof.
  intros HP Hall. revert s. induction Hall as [|o outs Ho _ IH]; intros s.
  - done.
  - simpl. unfold bind. rewrite framed_render_output.
    rewrite (render_output_well_formed _ _ _ _ _ P) by done. apply IH.
Qed.

(** X3.  A stream output without a name makes the dispatcher raise
    [AttributeError] at that output: the outputs before it are rendered,
    those after it are not, whatever they are. *)
Theorem nameless_stream_stops_rendering
    self token cell_index ln mime_priority
    (o : output) (pre post : list output) s :
  output_type o = "stream" -> name o = None ->
  for_each (render_output self token cell_index ln mime_priority)
    (pre ++ o :: post) s
  = (for_each (render_output self token cell_index ln mime_priority) pre ;;;
     raise (AttributeError "name")) s.
Proof.
  intros Hkind Hname. rewrite for_each_app. unfold bind.
  destruct (for_each _ pre s) as [[e|[]] s1]; [done|].
  simpl. unfold bind, render_output. by rewrite Hkind, Hname.
Qed.

Lemma is_rich_branch (o : output) :
  is_rich o = true ->
  String.eqb (output_type o) "stream" = false
  /\ String.eqb (output_type o) "error" = false.
Proof.
  unfold is_rich. intros [H1%String.eqb_eq | H1%String.eqb_eq]%orb_true_iff;
    by rewrite H1.
Qed.

(** X4.  A display_data or execute_result output without a [data] key: with
    an empty priority list it is reported like any output with no
    acceptable representation; with a non-empty one the lookup of [data]
    raises [KeyError] and nothing is appended or reported. *)
Theorem rich_output_without_data
    self token cell_index ln mime_priority P (o : output) s :
  is_rich o = true -> data o = None ->
  py_iter mime_priority = inr P ->
  (P = [] ->
   render_output self token cell_index ln mime_priority o s
   = (inr tt, st_app s (warned (mime_type_warning ln))))
  /\ (P <> [] ->
      render_output self token cell_index ln mime_priority o s
      = (inl (KeyError "data"), s)).
Proof.
  intros Hr Hd HP. destruct (is_rich_branch o Hr) as [Hs He].
  unfold render_output. rewrite Hs, He. fold (is_rich o). rewrite Hr.
  unfold bind, lift. rewrite HP. split.
  - intros ->. reflexivity.
  - intros Hne. destruct P as [|x P]; [done|]. simpl. by rewrite Hd.
Qed.

(** X5.  The mime priority is read for display_data and execute_result
    outputs only: every other output is rendered the same whatever the
    option holds, while on a rich output a priority that is not iterable
    raises before anything is appended or reported. *)
Theorem mime_priority_only_for_rich_outputs
    self token cell_index ln (o : output) s :
  (is_rich o = false ->
   forall p p',
     render_output self token cell_index ln p o s
     = render_output self token cell_index ln p' o s)
  /\ (is_rich o = true ->
      forall p e, py_iter p = inl e ->
        render_output self token cell_index ln p o s = (inl e, s)).
Proof.
  split.
  - intros Hr p p'. unfold render_output. fold (is_rich o). rewrite Hr.
    reflexivity.
  - intros Hr p e Hp. destruct (is_rich_branch o Hr) as [Hs He].
    unfold render_output. rewrite Hs, He. fold (is_rich o). rewrite Hr.
    unfold bind, lift. by rewrite Hp.
Qed.

End DispatcherProperties.

Lemma for_each_ext {S A} (f g : A -> M S unit) (xs : list A) (s : S) :
  (forall x s, f x s = g x s) -> for_each f xs s = for_each g xs s.
Proof.
  intros Hfg. revert s. induction xs as [|x xs IH]; intros s; simpl; [done|].
  unfold bind. rewrite Hfg. destruct (g x s) as [[e|[]] s1]; [done|]. apply IH.
Qed.

Lemma render_output_same_log_type r h (i1 i2 : Imports)
    self token cell_index ln mime_priority o :
  @DEFAULT_LOG_TYPE i1 = @DEFAULT_LOG_TYPE i2 ->
  @render_output r h i1 self token cell_index ln mime_priority o
  = @render_output r h i2 self token cell_index ln mime_priority o.
Proof.
  destruct i1 as [c1 t1], i2 as [c2 t2]. simpl. intros ->. reflexivity.
Qed.

(** X6.  With [merge_streams] off, [coalesce_streams] is never applied:
    two runs whose imports differ only in that function render the outputs
    of a cell identically. *)
Theorem merge_streams_off_skips_coalescing
    (r : NbElementRenderer) (h : Host) (i1 i2 : Imports) self token v s :
  @DEFAULT_LOG_TYPE i1 = @DEFAULT_LOG_TYPE i2 ->
  get_nb_config (config_nb_config self) "merge_streams" (Some (index token))
  = inr v ->
  truthy v = false ->
  @render_nb_cell_code_outputs r h i1 self token s
  = @render_nb_cell_code_outputs r h i2 self token s.
Proof.
  intros Hlog Hget Hv. unfold render_nb_cell_code_outputs, bind, lift.
  destruct (token_line token) as [?|ln]; [done|].
  destruct (cell_outputs self (index token)) as [?|outs]; [done|].
  rewrite Hget, Hv.
  destruct (get_nb_config _ "mime_priority" _) as [?|p]; [done|].
  apply for_each_ext. intros o s1.
  by rewrite (render_output_same_log_type r h i1 i2).
Qed.

(** ** Further properties of the cell renderer *)

Section CellProperties.
Context {nb_renderer : NbElementRenderer} {host : Host} {imports : Imports}.

Lemma framed_render_nb_cell_code_source self token :
  framed (render_nb_cell_code_source self token).
Proof.
  unfold render_nb_cell_code_source.
  repeat (apply framed_bind; [apply framed_lift | intros ?]).
  apply framed_extend.
Qed.

Lemma framed_render_nb_cell_code self token :
  framed (render_nb_cell_code self token).
Proof.
  unfold render_nb_cell_code. apply framed_context.
  repeat match goal with
         | |- framed (bind _ _) => apply framed_bind; [|intros ?]
         | |- framed (current_node_context _ _) => apply framed_context
         | |- framed (if ?b then _ else _) => destruct b
         | |- framed (match ?x with _ => _ end) => destruct x
         end;
    auto using framed_ret, framed_lift, framed_render_nb_cell_code_source,
      framed_render_nb_cell_code_outputs.
Qed.

Lemma current_node_context_appends {A} (n : node) (body : R A) s :
  exists ch,
    current_node (snd (current_node_context n body s))
    = current_node s ++ [with_children n ch].
Proof.
  unfold current_node_context. destruct (body _) as [r st']. simpl. eauto.
Qed.

(** X7.  Rendering a code cell does not depend on what was rendered
    before: whatever the state, the result (normal or not) is the same, the
    nodes and diagnostics already there are kept, and the same single
    container and the same diagnostics are appended. *)
Theorem cell_rendering_is_independent_of_state self token :
  exists result cc diagnostics,
    forall s,
      render_nb_cell_code self token s
      = (result,
         {| current_node := current_node s ++ [cc];
            reported := reported s ++ diagnostics |}).
Proof.
  destruct (render_nb_cell_code_shape self token empty_state)
    as (cc & _ & _ & Hcc & _).
  exists (fst (render_nb_cell_code self token empty_state)), cc,
    (reported (snd (render_nb_cell_code self token empty_state))).
  intros s. rewrite framed_render_nb_cell_code. unfold st_app.
  by rewrite Hcc.
Qed.

Lemma str_in_not_elem_of (x : string) (l : list string) :
  x ∉ l -> str_in x l = false.
Proof.
  intros Hx. destruct (str_in x l) eqn:E; [|done].
  by apply str_in_elem_of in E.
Qed.

(** X8.  When the source is not removed by the configuration nor by a tag,
    and the line-number option and the token's line can be read, the first
    child of the cell container is the source container, and it holds
    exactly the highlighted code block of the cell's content. *)
Theorem source_container_is_emitted self token v number_lines ln s :
  get_nb_config (config_nb_config self) "remove_code_source"
    (Some (index token)) = inr v ->
  truthy v = false ->
  "remove_input" ∉ cell_tags token -> "remove-input" ∉ cell_tags token ->
  get_nb_config (config_nb_config self) "number_source_lines"
    (Some (index token)) = inr number_lines ->
  token_line token = inr ln ->
  exists cc source_container others,
    current_node (snd (render_nb_cell_code self token s))
    = current_node s ++ [cc]
    /\ children_of cc = source_container :: others
    /\ nb_element source_container = Some "cell_code_source"
    /\ children_of source_container
       = [add_line_and_source_path (document_source self) token
            (create_highlighted_code_block (content token) (lexer token)
               number_lines (document_source self) ln)].
Proof.
  intros Hget Hv Ht1%str_in_not_elem_of Ht2%str_in_not_elem_of Hnl Hln.
  unfold cell_tags in Ht1, Ht2.
  unfold render_nb_cell_code, render_nb_cell_code_source.
  generalize (render_nb_cell_code_outputs self token). intros mout.
  set (exec_count := match execution_count token with
                     | Some c => AInt c | None => ANone end).
  unfold current_node_context, bind, lift, ret, extend.
  rewrite Hget, Hv, Ht1, Ht2, Hnl, Hln. simpl.
  repeat case_match; simplify_eq/=;
    eexists _, _, _; (split; [reflexivity|]); (split; [reflexivity|]);
    split; reflexivity.
Qed.

(** X9.  When the configuration and the token can be read, the cell has
    outputs and they are not removed by the configuration nor by a tag, the
    last child of the cell container is the output container; its children
    are the nodes of the outputs, and the cell renders with the result of
    rendering its outputs. *)
Theorem output_container_is_emitted
    self token v number_lines ln outs w s :
  get_nb_config (config_nb_config self) "remove_code_source"
    (Some (index token)) = inr v ->
  get_nb_config (config_nb_config self) "number_source_lines"
    (Some (index token)) = inr number_lines ->
  token_line token = inr ln ->
  cell_outputs self (index token) = inr outs -> outs <> [] ->
  get_nb_config (config_nb_config self) "remove_code_outputs"
    (Some (index token)) = inr w ->
  truthy w = false ->
  "remove_output" ∉ cell_tags token -> "remove-output" ∉ cell_tags token ->
  exists cc others output_container,
    current_node (snd (render_nb_cell_code self token s))
    = current_node s ++ [cc]
    /\ children_of cc = others ++ [output_container]
    /\ nb_element output_container = Some "cell_code_output"
    /\ children_of output_container
       = current_node (snd (render_nb_cell_code_outputs self token empty_state))
    /\ fst (render_nb_cell_code self token s)
       = fst (render_nb_cell_code_outputs self token empty_state).
Proof.
  intros Hget Hnl Hln Houts Hne Hrco Hw
    Ht1%str_in_not_elem_of Ht2%str_in_not_elem_of.
  unfold cell_tags in Ht1, Ht2.
  pose proof (framed_render_nb_cell_code_outputs self token) as Hfo.
  unfold render_nb_cell_code, render_nb_cell_code_source.
  generalize dependent (render_nb_cell_code_outputs self token).
  intros mout Hfo.
  set (exec_count := match execution_count token with
                     | Some c => AInt c | None => ANone end).
  unfold current_node_context, bind, lift, ret, extend.
  rewrite Hget, Hnl, Hln, Houts, Hrco, Hw, Ht1, Ht2.
  destruct outs as [|o outs]; [done|]. simpl.
  destruct (negb (truthy v) && _ && _); simpl;
    rewrite Hfo; destruct (mout empty_state) as [r d]; simpl.
  - eexists _, [_], _. repeat split; reflexivity.
  - eexists _, [], _. repeat split; reflexivity.
Qed.

(** X10.  When the configuration has no [remove_code_source] entry,
    rendering a code cell raises [KeyError]; the cell container has already
    been appended, and it stays without children. *)
Theorem missing_remove_code_source_raises self token s :
  config_nb_config self !! "remove_code_source" = None ->
  exists cc,
    render_nb_cell_code self token s
    = (inl (KeyError "remove_code_source"),
       {| current_node := current_node s ++ [cc]; reported := reported s |})
    /\ nb_element cc = Some "cell_code"
    /\ children_of cc = [].
Proof.
  intros Hnone.
  unfold render_nb_cell_code, current_node_context, bind, lift, get_nb_config.
  rewrite Hnone. simpl. eexists. repeat split; reflexivity.
Qed.

(** X11.  For a cell without outputs only [remove_code_source] and
    [number_source_lines] are read from the configuration: two renderers
    that agree on them (and on document and notebook) render the cell
    identically, whatever [remove_code_outputs], [merge_streams] and
    [mime_priority] are, or whether they are there at all. *)
Theorem cell_without_outputs_reads_source_options_only
    (self self' : DocutilsNbRenderer) token s :
  document_source self = document_source self' ->
  config_notebook self = config_notebook self' ->
  config_nb_config self !! "remove_code_source"
    = config_nb_config self' !! "remove_code_source" ->
  config_nb_config self !! "number_source_lines"
    = config_nb_config self' !! "number_source_lines" ->
  cell_outputs self (index token) = inr [] ->
  render_nb_cell_code self token s = render_nb_cell_code self' token s.
Proof.
  destruct self as [src cfg nb], self' as [src' cfg' nb']. simpl.
  intros -> -> H1 H2 Hempty.
  assert (cell_outputs {| document_source := src'; config_nb_config := cfg';
                          config_notebook := nb' |} (index token) = inr [])
    as Hempty' by exact Hempty.
  unfold render_nb_cell_code, render_nb_cell_code_source, get_nb_config,
    current_node_context, bind, lift. simpl.
  rewrite Hempty, Hempty', H1, H2. reflexivity.
Qed.

Lemma py_index_out_of_range {A} (l : list A) (i : Z) :
  i < - Z.of_nat (length l) \/ Z.of_nat (length l) <= i ->
  py_index l i = inl IndexError.
Proof.
  intros Hi. unfold py_index.
  destruct (Z.leb_spec 0 i).
  - destruct (Z.ltb_spec i (Z.of_nat (length l))); [lia|].
    by rewrite andb_false_r.
  - destruct (Z.leb_spec 0 (Z.of_nat (length l) + i)); [lia|]. done.
Qed.

(** X12.  A token whose index is outside the notebook's cells never gets
    its outputs rendered: rendering the cell raises, and the cell container
    holds no output container. *)
Theorem cell_index_out_of_range self token s :
  index token < - Z.of_nat (length (cells (config_notebook self)))
  \/ Z.of_nat (length (cells (config_notebook self))) <= index token ->
  exists e cc,
    fst (render_nb_cell_code self token s) = inl e
    /\ current_node (snd (render_nb_cell_code self token s))
       = current_node s ++ [cc]
    /\ Forall (fun n => is_nb_element "cell_code_output" n = false)
         (children_of cc)
    /\ (forall v,
          get_nb_config (config_nb_config self) "remove_code_source"
            (Some (index token)) = inr v ->
          truthy v = true -> e = IndexError).
Proof.
  intros Hrange.
  assert (cell_outputs self (index token) = inl IndexError) as Hcell.
  { unfold cell_outputs. by rewrite py_index_out_of_range. }
  destruct (render_nb_cell_code_shape self token s)
    as (cc & src & out & Hcc & _ & Hch & Hsrc & Hout).
  assert (exists e, fst (render_nb_cell_code self token s) = inl e
                    /\ (forall v,
                          get_nb_config (config_nb_config self)
                            "remove_code_source" (Some (index token)) = inr v ->
                          truthy v = true -> e = IndexError)) as (e & He & Hv).
  { unfold render_nb_cell_code.
    generalize (render_nb_cell_code_source self token). intros msrc.
    unfold current_node_context at 1. unfold bind, lift. rewrite Hcell.
    destruct (get_nb_config _ "remove_code_source" _) as [e|v]; simpl.
    - exists e. split; [done|]. intros ? [=].
    - destruct (negb (truthy v) && _ && _) eqn:Hshow.
      + unfold current_node_context.
        destruct (msrc _) as [[e|[]] st']; simpl.
        * exists e. split; [done|]. intros v' [= <-] Hv'.
          by rewrite Hv' in Hshow.
        * exists IndexError. by split.
      + exists IndexError. by split. }
  exists e, cc. split; [done|]. split; [done|]. split; [|done].
  rewrite Hch. apply Forall_app. split.
  - destruct Hsrc as [-> | (n & ? & -> & Hn & _)]; [constructor|].
    repeat constructor. unfold is_nb_element. by rewrite Hn.
  - destruct Hout as [-> | (n & outs & ? & _ & _ & Houts & _)]; [constructor|].
    congruence.
Qed.

Lemma has_space_replace_space (s : string) : has_space (replace_space s) = false.
Proof.
  induction s as [|c s IH]; simpl; [done|].
  rewrite IH, orb_false_r. destruct (Ascii.eqb c " ") eqn:E; [done|exact E].
Qed.

(** X13.  The [classes] of the cell container are [cell] followed by one
    [tag_] class per tag of the cell, in the order of the tags; no class
    contains a space, whatever the tags contain. *)
Theorem cell_classes_have_no_space self token s :
  exists cc classes,
    current_node (snd (render_nb_cell_code self token s))
    = current_node s ++ [cc]
    /\ attributes_of cc !! "classes" = Some (AStrs classes)
    /\ classes
       = "cell" :: List.map (fun tag => "tag_" +:+ replace_space tag)
                     (cell_tags token)
    /\ Forall (fun c => has_space c = false) classes.
Proof.
  unfold render_nb_cell_code.
  match goal with
  | |- context [current_node_context ?n ?body s] =>
      destruct (current_node_context_appends n body s) as [ch Hch]
  end.
  eexists _, _. split; [exact Hch|]. split; [reflexivity|].
  split; [reflexivity|].
  constructor; [reflexivity|].
  apply Forall_forall. intros c Hc.
  apply list_elem_of_In, in_map_iff in Hc as (tag & <- & _).
  simpl. apply has_space_replace_space.
Qed.

End CellProperties.

(** ** Diagnostics and the order of cells *)

Section SequenceProperties.
Context {nb_renderer : NbElementRenderer} {host : Host} {imports : Imports}.

Lemma render_output_reports_at_most_one self token cell_index ln mime_priority o :
  (length (reported
             (snd (render_output self token cell_index ln mime_priority o
                     empty_state))) <= 1)%nat.
Proof.
  unfold render_output, bind, lift, extend, create_warning,
    current_node_context, update_last, ret, raise.
  repeat case_match; simplify_eq/=; lia.
Qed.

Lemma for_each_reports_at_most self token cell_index ln mime_priority outs :
  (length (reported
             (snd (for_each
                     (render_output self token cell_index ln mime_priority)
                     outs empty_state))) <= length outs)%nat.
Proof.
  induction outs as [|o outs IH]; simpl; [done|].
  pose proof (render_output_reports_at_most_one self token cell_index ln
                mime_priority o) as Ho.
  unfold bind.
  destruct (render_output _ _ _ _ _ o empty_state) as [[e|[]] d]; simpl in *.
  - lia.
  - rewrite (framed_for_each
               (render_output self token cell_index ln mime_priority) outs
               (framed_render_output self token cell_index ln mime_priority)
               d).
    simpl. rewrite length_app. lia.
Qed.

(** X14.  The dispatcher reports at most one diagnostic per output: after
    rendering a sequence, the diagnostics reported before are still there,
    in front, and at most as many were added as the sequence has outputs. *)
Theorem at_most_one_diagnostic_per_output
    self token cell_index ln mime_priority (outs : list output) s :
  exists added,
    reported
      (snd (for_each (render_output self token cell_index ln mime_priority)
              outs s))
    = reported s ++ added
    /\ (length added <= length outs)%nat.
Proof.
  rewrite (framed_for_each
             (render_output self token cell_index ln mime_priority) outs
             (framed_render_output self token cell_index ln mime_priority) s).
  simpl. eexists. split; [reflexivity|]. apply for_each_reports_at_most.
Qed.

Lemma cells_in_order self (tokens : list SyntaxTreeNode) :
  Forall (fun token =>
            fst (render_nb_cell_code self token empty_state) = inr tt) tokens ->
  exists containers added,
    Forall2
      (fun token cc =>
         current_node (snd (render_nb_cell_code self token empty_state))
         = [cc])
      tokens containers
    /\ current_node added = containers
    /\ forall s,
         for_each (render_nb_cell_code self) tokens s = (inr tt, st_app s added).
Proof.
  induction 1 as [|t tokens Ht _ (cs & d & Hall & Hcs & Hrun)].
  { exists [], empty_state. split; [constructor|]. split; [done|].
    intros s. simpl. unfold ret. by rewrite st_app_empty_r. }
  destruct (render_nb_cell_code_shape self t empty_state)
    as (cc & _ & _ & Hcc & _). simpl in Hcc.
  exists (cc :: cs), (st_app (snd (render_nb_cell_code self t empty_state)) d).
  split; [by constructor|]. split.
  - simpl. by rewrite Hcc, Hcs.
  - intros s. simpl. unfold bind. rewrite framed_render_nb_cell_code, Ht.
    by rewrite Hrun, st_app_assoc.
Qed.

(** X15.  Code cells rendered one after the other, as long as each renders
    normally, each add exactly one container to the current node, in the
    order in which they are rendered: the container the cell gets when
    rendered alone.  At the first cell that raises, rendering stops with
    that exception: the container of that cell is the last in the tree, and
    the cells after it are not rendered, whatever they are. *)
Theorem cell_containers_follow_call_order
    self (pre post : list SyntaxTreeNode) (failing : SyntaxTreeNode) s :
  Forall (fun token =>
            fst (render_nb_cell_code self token empty_state) = inr tt) pre ->
  exists containers,
    Forall2
      (fun token cc =>
         current_node (snd (render_nb_cell_code self token empty_state))
         = [cc])
      pre containers
    /\ fst (for_each (render_nb_cell_code self) pre s) = inr tt
    /\ current_node (snd (for_each (render_nb_cell_code self) pre s))
       = current_node s ++ containers
    /\ (forall e,
          fst (render_nb_cell_code self failing empty_state) = inl e ->
          exists cc,
            current_node (snd (render_nb_cell_code self failing empty_state))
            = [cc]
            /\ for_each (render_nb_cell_code self) (pre ++ failing :: post) s
               = (for_each (render_nb_cell_code self) pre ;;;
                  render_nb_cell_code self failing) s
            /\ fst (for_each (render_nb_cell_code self)
                      (pre ++ failing :: post) s) = inl e
            /\ current_node
                 (snd (for_each (render_nb_cell_code self)
                         (pre ++ failing :: post) s))
               = current_node s ++ containers ++ [cc]).
Proof.
  intros Hpre.
  destruct (cells_in_order self pre Hpre) as (cs & d & Hall & Hcs & Hrun).
  exists cs. split; [done|]. rewrite Hrun. split; [done|].
  split; [simpl; by rewrite Hcs|].
  intros e He.
  destruct (render_nb_cell_code_shape self failing empty_state)
    as (cc & _ & _ & Hcc & _). simpl in Hcc.
  exists cc. split; [done|].
  assert (for_each (render_nb_cell_code self) (pre ++ failing :: post) s
          = (for_each (render_nb_cell_code self) pre ;;;
             render_nb_cell_code self failing) s) as Heq.
  { rewrite for_each_app. unfold bind. rewrite Hrun. simpl. unfold bind.
    rewrite framed_render_nb_cell_code, He. reflexivity. }
  split; [done|]. rewrite Heq. unfold bind. rewrite Hrun.
  rewrite framed_render_nb_cell_code, He. simpl.
  split; [done|]. by rewrite Hcc, Hcs, app_assoc.
Qed.

End SequenceProperties.

(** ** Further properties of [Parser.parse] *)

Lemma lor_byte (a b : Z) :
  0 <= a < 256 -> 0 <= b < 256 -> 0 <= Z.lor a b < 256.
Proof.
  intros Ha Hb.
  assert (0 <= Z.lor a b) as Hnn by (apply Z.lor_nonneg; lia).
  split; [done|].
  destruct (Z.eq_dec (Z.lor a b) 0) as [E|Hne]; [lia|].
  apply (Z.log2_lt_pow2 _ 8); [lia|].
  rewrite Z.log2_lor by lia.
  assert (forall x, 0 <= x < 256 -> Z.log2 x < 8) as Hlog.
  { intros x Hx. destruct (Z.eq_dec x 0) as [->|]; [done|].
    apply Z.log2_lt_pow2; lia. }
  pose proof (Hlog a Ha). pose proof (Hlog b Hb). lia.
Qed.

Lemma land_3F (x : Z) : 0 <= Z.land x 0x3F < 64.
Proof.
  change 0x3F with (Z.ones 6). rewrite Z.land_ones by lia.
  apply Z.mod_pos_bound. lia.
Qed.

Lemma shiftr_bound (c n k : Z) :
  0 <= n -> 0 <= c < k * 2 ^ n -> 0 <= Z.shiftr c n < k.
Proof.
  intros Hn Hc. rewrite Z.shiftr_div_pow2 by done.
  assert (0 < 2 ^ n) by (apply Z.pow_pos_nonneg; lia).
  split; [apply Z.div_pos; lia|].
  apply Z.div_lt_upper_bound; lia.
Qed.

Lemma utf8_encode_char_outcome (c : Z) :
  0 <= c < 0x110000 ->
  (0xD800 <= c <= 0xDFFF /\ utf8_encode_char c = inl UnicodeEncodeError)
  \/ (~ (0xD800 <= c <= 0xDFFF) /\
      exists bs, utf8_encode_char c = inr bs
                 /\ Forall (fun b => 0 <= b < 256) bs
                 /\ (1 <= length bs <= 4)%nat).
Proof.
  intros Hc. unfold utf8_encode_char.
  destruct (Z.ltb_spec c 0x80).
  { right. split; [lia|]. eexists. split; [done|].
    split; [repeat constructor; lia | simpl; lia]. }
  destruct (Z.ltb_spec c 0x800).
  { right. split; [lia|]. eexists. split; [done|]. split; [|simpl; lia].
    pose proof (land_3F c). pose proof (shiftr_bound c 6 32).
    repeat constructor; apply lor_byte; lia. }
  destruct (Z.ltb_spec c 0x10000).
  { destruct (Z.leb_spec 0xD800 c); destruct (Z.leb_spec c 0xDFFF); simpl;
      try (left; split; [lia|done]).
    all: right; (split; [lia|]); eexists; (split; [done|]);
      (split; [|simpl; lia]);
      pose proof (land_3F c); pose proof (land_3F (Z.shiftr c 6));
      pose proof (shiftr_bound c 12 16);
      repeat constructor; apply lor_byte; lia. }
  right. split; [lia|]. eexists. split; [done|]. split; [|simpl; lia].
  pose proof (land_3F c). pose proof (land_3F (Z.shiftr c 6)).
  pose proof (land_3F (Z.shiftr c 12)). pose proof (shiftr_bound c 18 8).
  repeat constructor; apply lor_byte; lia.
Qed.

Lemma utf8_encode_cases (text : list Z) :
  Forall (fun c => 0 <= c < 0x110000) text ->
  (Exists (fun c => 0xD800 <= c <= 0xDFFF) text
   /\ utf8_encode text = inl UnicodeEncodeError)
  \/ (Forall (fun c => ~ (0xD800 <= c <= 0xDFFF)) text /\
      exists bytes, utf8_encode text = inr bytes
                    /\ Forall (fun b => 0 <= b < 256) bytes
                    /\ (length text <= length bytes <= 4 * length text)%nat).
Proof.
  induction 1 as [|c text Hc _ IH].
  { right. split; [constructor|]. exists []. repeat split; simpl; try lia.
    constructor. }
  simpl.
  destruct (utf8_encode_char_outcome c Hc)
    as [[Hs ->] | (Hs & bs & -> & Hbs & Hlen)].
  { left. split; [by left | done]. }
  destruct IH as [[Hex ->] | (Hall & bytes & -> & Hbytes & Hl)].
  { left. split; [by right | done]. }
  right. split; [by constructor|]. exists (bs ++ bytes).
  split; [done|]. split; [by apply Forall_app|].
  rewrite length_app. simpl. lia.
Qed.

Lemma utf8_encode_surrogate (text : list Z) :
  Forall (fun c => 0 <= c < 0x110000) text ->
  Exists (fun c => 0xD800 <= c <= 0xDFFF) text ->
  utf8_encode text = inl UnicodeEncodeError.
Proof.
  intros Hvalid Hsur.
  destruct (utf8_encode_cases text Hvalid) as [[_ ?] | [Hall _]]; [done|].
  exfalso. apply Exists_exists in Hsur as (c & Hin & Hc).
  rewrite Forall_forall in Hall. by apply (Hall c).
Qed.

(** X16.  On a text of Unicode code points, the encoding of the notebook
    fails exactly when the text holds a lone surrogate, and then with
    [UnicodeEncodeError]; otherwise it gives bytes, between one and four
    per code point. *)
Theorem utf8_encode_outcome (text : list Z) :
  Forall (fun c => 0 <= c < 0x110000) text ->
  (Exists (fun c => 0xD800 <= c <= 0xDFFF) text
   /\ utf8_encode text = inl UnicodeEncodeError)
  \/ (Forall (fun c => ~ (0xD800 <= c <= 0xDFFF)) text /\
      exists bytes, utf8_encode text = inr bytes
                    /\ Forall (fun b => 0 <= b < 256) bytes
                    /\ (length text <= length bytes <= 4 * length text)%nat).
Proof. apply utf8_encode_cases. Qed.

Section ParseProperties.
Context {env : ParserEnv}.

Lemma exec_events_no_write (exec_data : option ExecData) :
  forallb (fun e => negb (is_write_file e)) (exec_events exec_data) = true.
Proof.
  destruct exec_data as [d|]; simpl; [|done].
  by destruct (exec_data_truth d).
Qed.

Lemma config_events_no_write {C} prefix (r : exn + C) :
  forallb (fun e => negb (is_write_file e)) (config_events prefix r) = true.
Proof. unfold config_events. by destruct (config_error r). Qed.

Lemma exec_step (exec_data : option ExecData) (tr : list (event ExecData)) :
  match exec_data with
  | Some d => if exec_data_truth d then emit (set_nb_exec_data d) else ret tt
  | None => ret tt
  end tr = (inr tt, tr ++ exec_events exec_data).
Proof.
  destruct exec_data as [d|]; simpl; [destruct (exec_data_truth d)|];
    unfold emit, ret; by rewrite ?app_nil_r.
Qed.

(** Where [parse_notebook] stops, and what it has done by then. *)
Lemma parse_notebook_trace inputstring document_source md_config nb_config trace :
  exists added,
    snd (parse_notebook inputstring document_source md_config nb_config trace)
    = trace ++ added
    /\ (fst (parse_notebook inputstring document_source md_config nb_config
               trace) <> inr tt ->
        forallb (fun e => negb (is_write_file e)) added = true).
Proof.
  unfold parse_notebook, bind, lift.
  destruct (nb_reader_read _ _ _) as [?|notebook].
  { exists []. by rewrite app_nil_r. }
  destruct (update_notebook _ _ _) as [?|[updated ed]].
  { exists []. by rewrite app_nil_r. }
  rewrite exec_step.
  destruct (create_md_parser _) as [?|mdit_parser];
    [exists (exec_events ed); auto using exec_events_no_write|].
  destruct (load_renderer _ _) as [?|nb_renderer];
    [exists (exec_events ed); auto using exec_events_no_write|].
  destruct (notebook_to_tokens _ _) as [?|[toks tokenized]];
    [exists (exec_events ed); auto using exec_events_no_write|].
  destruct (renderer_render _ _ _ _ _) as [?|rendered];
    [exists (exec_events ed); auto using exec_events_no_write|].
  destruct (nbformat_writes _) as [?|text];
    [exists (exec_events ed); auto using exec_events_no_write|].
  destruct (utf8_encode _) as [?|content];
    [exists (exec_events ed); auto using exec_events_no_write|].
  exists (exec_events ed ++ [write_file ["rendered.ipynb"] content true]).
  unfold emit; simpl. split; [by rewrite app_assoc | done].
Qed.

(** X17.  Every run of [parse] first registers the [code-cell] and
    [raw-cell] directives and only adds to what was done before; a run that
    raises, at whatever stage, has not called [write_file]. *)
Theorem parse_writes_nothing_on_failure
    inputstring document_source settings trace :
  exists rest,
    snd (parse inputstring document_source settings trace)
    = trace ++ [register_directive "code-cell"; register_directive "raw-cell"]
        ++ rest
    /\ (fst (parse inputstring document_source settings trace) <> inr tt ->
        forallb (fun e => negb (is_write_file e)) rest = true).
Proof.
  unfold parse, bind, emit.
  rewrite get_md_config_spec.
  destruct (config_or_default (create_md_config settings) _) as [md|] eqn:Hmd.
  2: { apply config_or_default_None in Hmd as He. destruct He as [e He].
       rewrite He. simpl. eexists. split.
       - rewrite <- !app_assoc. reflexivity.
       - intros _. apply config_events_no_write. }
  rewrite get_nb_parser_config_spec.
  destruct (config_or_default (create_nb_config settings) _) as [nb|] eqn:Hnb.
  2: { apply config_or_default_None in Hnb as He. destruct He as [e He].
       rewrite He. simpl. eexists. split.
       - rewrite <- !app_assoc. reflexivity.
       - intros _. rewrite forallb_app, !config_events_no_write. done. }
  match goal with
  | |- context [parse_notebook ?i ?d ?m ?n ?t] =>
      destruct (parse_notebook_trace i d m n t) as (added & Htr & Hno)
  end.
  eexists. split.
  - rewrite Htr, <- !app_assoc. reflexivity.
  - intros Hfail. rewrite !forallb_app, !config_events_no_write. simpl.
    by apply Hno.
Qed.

(** X18.  An exception of the configuration constructors that the clause
    [except (TypeError, ValueError)] does not catch (its class is neither
    of the two nor derives from them) is propagated: [parse] raises it
    right after the directives are registered (and, for the notebook
    configuration, after the markdown configuration is settled), logs
    nothing for it and does not read the notebook. *)
Theorem other_configuration_errors_propagate
    inputstring document_source settings trace e :
  handled_arg0 e = None ->
  (create_md_config settings = inl e ->
   parse inputstring document_source settings trace
   = (inl e,
      trace ++ [register_directive "code-cell"; register_directive "raw-cell"]))
  /\ (forall md_config,
        config_or_default (create_md_config settings) default_MdParserConfig
          = Some md_config ->
        create_nb_config settings = inl e ->
        parse inputstring document_source settings trace
        = (inl e,
           trace
             ++ [register_directive "code-cell"; register_directive "raw-cell"]
             ++ config_events "myst configuration invalid: "
                  (create_md_config settings))).
Proof.
  intros Hh.
  assert (forall C (d : C), config_or_default (inl e) d = None) as Hnone.
  { intros C d. unfold config_or_default. by rewrite Hh. }
  assert (forall C, @config_error C (inl e) = None) as Hcerr.
  { intros C. unfold config_error. by rewrite Hh. }
  split.
  - intros He. unfold parse, bind, emit.
    rewrite get_md_config_spec, He, Hnone, Hh. unfold config_events.
    rewrite Hcerr. simpl. by rewrite app_nil_r, <- app_assoc.
  - intros md Hmd He. unfold parse, bind, emit.
    rewrite get_md_config_spec, Hmd, get_nb_parser_config_spec, He, Hnone, Hh.
    unfold config_events at 2. rewrite Hcerr. simpl.
    by rewrite app_nil_r, <- !app_assoc.
Qed.

(** X19.  When every stage up to the serialization succeeds but the
    serialized text holds a lone surrogate, [parse] raises
    [UnicodeEncodeError] after the document has been rendered, and no file
    is written. *)
Theorem unencodable_notebook_is_not_written
    inputstring document_source settings trace
    md_config nb_config notebook updated exec_data mdit_parser nb_renderer
    mdit_tokens tokenized rendered text :
  config_or_default (create_md_config settings) default_MdParserConfig
    = Some md_config ->
  config_or_default (create_nb_config settings) default_NbParserConfig
    = Some nb_config ->
  nb_reader_read (read_as_md nb_config) md_config inputstring = inr notebook ->
  update_notebook notebook document_source nb_config
    = inr (updated, exec_data) ->
  create_md_parser md_config = inr mdit_parser ->
  load_renderer (render_plugin nb_config) mdit_parser = inr nb_renderer ->
  notebook_to_tokens updated mdit_parser = inr (mdit_tokens, tokenized) ->
  renderer_render mdit_tokens mdit_parser (as_dict nb_config) tokenized
    nb_renderer = inr rendered ->
  nbformat_writes rendered = inr text ->
  Forall (fun c => 0 <= c < 0x110000) text ->
  Exists (fun c => 0xD800 <= c <= 0xDFFF) text ->
  parse inputstring document_source settings trace
  = (inl UnicodeEncodeError,
     trace
       ++ [register_directive "code-cell"; register_directive "raw-cell"]
       ++ config_events "myst configuration invalid: "
            (create_md_config settings)
       ++ config_events "myst-nb configuration invalid: "
            (create_nb_config settings)
       ++ exec_events exec_data).
Proof.
  intros Hmd Hnb E1 E2 E3 E4 E5 E6 E7 Hvalid Hsur.
  assert (utf8_encode text = inl UnicodeEncodeError) as E8
    by by apply utf8_encode_surrogate.
  rewrite (parse_continues _ _ _ md_config nb_config) by done.
  unfold parse_notebook, bind, lift.
  rewrite E1, E2, exec_step, E3, E4, E5, E6, E7, E8.
  by rewrite <- !app_assoc.
Qed.

End ParseProperties.

(** ** Properties of [render_nb_metadata] *)

(** X20.  [render_nb_metadata] stores the kernel specification and the
    language information on the document ([None] when the notebook has
    none) and forwards the rest of the metadata to the front matter: never
    the keys [kernelspec], [language_info] and [widgets], and every other
    key with its value. *)
Theorem metadata_front_matter (meta : gmap string json) :
  exists content,
    render_nb_metadata meta
    = [set_document_item "nb_kernelspec" (default JNull (meta !! "kernelspec"));
       set_document_item "nb_language_info"
         (default JNull (meta !! "language_info"));
       render_front_matter content]
    /\ content !! "kernelspec" = None
    /\ content !! "language_info" = None
    /\ content !! "widgets" = None
    /\ (forall key,
          key <> "kernelspec" -> key <> "language_info" -> key <> "widgets" ->
          content !! key = meta !! key).
Proof.
  exists (delete "widgets" (delete "language_info" (delete "kernelspec" meta))).
  split.
  { unfold render_nb_metadata, dict_pop.
    by rewrite (lookup_delete_ne meta "kernelspec" "language_info"). }
  repeat split.
  - rewrite lookup_delete_ne, lookup_delete_ne by done. apply lookup_delete_eq.
  - rewrite lookup_delete_ne by done. apply lookup_delete_eq.
  - apply lookup_delete_eq.
  - intros key H1 H2 H3. by rewrite !lookup_delete_ne.
Qed.

(** ** The theorems on concrete inputs *)

#[local] Existing Instances text_renderer docutils_host package_imports.

(** C1 on the example of the specification: priorities html, png, plain
    and a data mapping filled with plain first, then png. *)
Lemma mime_resolver_priority_order_witness :
  data (display_output "display_data" plain_and_png)
  = Some (list_to_map plain_and_png)
  /\ next_mime three_priorities (display_output "display_data" plain_and_png)
     = inr (Some "image/png").
Proof.
  split; [reflexivity|].
  apply (@mime_resolver_priority_order text_renderer docutils_host
           package_imports three_priorities
           (display_output "display_data" plain_and_png)
           (list_to_map plain_and_png) eq_refl).
  vm_compute. reflexivity.
Defined.

(** C2, amended, on an execute_result that only has [text/plain] while the
    priority list only accepts [image/png]. *)
Lemma mime_type_not_found_warns_and_continues_witness :
  render_output (code_self []) (code_token 0 None) 0 3 (CStrs ["image/png"])
    (display_output "execute_result" [("text/plain", JStr "1")]) empty_state
  = (inr tt,
     {| current_node :=
          [reporter_warning
             "No output mime type found from render_priority [mystnb.mime_type]"
             3];
        reported :=
          [{| message := "No output mime type found from render_priority";
              warning_line := 3; wtype := "mystnb"; subtype := "mime_type" |}]
     |}).
Proof.
  apply (@mime_type_not_found_warns_and_continues text_renderer docutils_host
           package_imports (code_self []) (code_token 0 None) 0 3
           (CStrs ["image/png"]) ["image/png"]
           (display_output "execute_result" [("text/plain", JStr "1")])
           (list_to_map [("text/plain", JStr "1")])
           [stream_output "stdout" "a"] [stream_output "stderr" "b"]
           empty_state).
  - right. reflexivity.
  - reflexivity.
  - reflexivity.
  - intros x Hx. apply list_elem_of_singleton in Hx. subst x.
    apply not_elem_of_dom. reflexivity.
Defined.

(** C4, amended, on an output of kind [update_display_data]. *)
Lemma unsupported_output_type_warns_and_continues_witness :
  render_output (code_self []) (code_token 0 None) 0 3 (CStrs three_priorities)
    unsupported_output empty_state
  = (inr tt,
     {| current_node :=
          [reporter_warning
             "Unsupported output type: update_display_data [mystnb.output_type]"
             3];
        reported :=
          [{| message := "Unsupported output type: update_display_data";
              warning_line := 3; wtype := "mystnb"; subtype := "output_type" |}]
     |}).
Proof.
  apply (@unsupported_output_type_warns_and_continues text_renderer
           docutils_host package_imports (code_self []) (code_token 0 None)
           0 3 (CStrs three_priorities) unsupported_output
           [stream_output "stdout" "a"] [stream_output "stderr" "b"]
           empty_state); discriminate.
Defined.

(** C4 as stated fails: for an output of unsupported kind a node is
    produced, the [system_message] of the diagnostic, which is appended to
    the current node. *)
Lemma unsupported_output_type_appends_a_node :
  ~ (current_node
       (snd (@render_output text_renderer docutils_host package_imports
               (code_self []) (code_token 0 None) 0 3
               (CStrs three_priorities) unsupported_output empty_state))
     = current_node empty_state).
Proof. vm_compute. discriminate. Qed.

(** C2 as stated fails: for a rich output with no acceptable
    representation a node is produced, the [system_message] of the
    diagnostic, which is appended to the current node. *)
Lemma mime_type_not_found_appends_a_node :
  ~ (current_node
       (snd (@render_output text_renderer docutils_host package_imports
               (code_self []) (code_token 0 None) 0 3 (CStrs ["image/png"])
               (display_output "execute_result" [("text/plain", JStr "1")])
               empty_state))
     = current_node empty_state).
Proof. vm_compute. discriminate. Qed.


(** C5 on a cell tagged [remove-input] and [remove_output], under the
    default configuration, which shows both; without the tags the same cell
    gets both containers. *)
Lemma tag_override_wins_witness :
  List.map nb_element
    (flat_map children_of
       (current_node
          (snd (render_nb_cell_code (code_self [stream_output "stdout" "1"])
                  (code_token 0 None) empty_state))))
  = [Some "cell_code_source"; Some "cell_code_output"]
  /\ exists cc,
       current_node
         (snd (@render_nb_cell_code text_renderer docutils_host package_imports
                 (code_self [stream_output "stdout" "1"]) tagged_token
                 empty_state))
       = [cc]
       /\ Forall (fun n => is_nb_element "cell_code_source" n = false)
            (children_of cc)
       /\ Forall (fun n => is_nb_element "cell_code_output" n = false)
            (children_of cc).
Proof.
  split; [reflexivity|].
  destruct (@tag_override_wins text_renderer docutils_host package_imports
              (code_self [stream_output "stdout" "1"]) tagged_token empty_state)
    as (cc & Hcc & Hsrc & Hout).
  exists cc. split; [exact Hcc|]. split.
  - apply Hsrc. right. apply str_in_elem_of. reflexivity.
  - apply Hout. left. apply str_in_elem_of. reflexivity.
Defined.

(** C6 on a code cell without outputs, under the default configuration
    and without tags. *)
Lemma no_outputs_no_output_container_witness :
  exists cc,
    current_node
      (snd (@render_nb_cell_code text_renderer docutils_host package_imports
              (code_self []) (code_token 0 None) empty_state))
    = [cc]
    /\ Forall (fun n => is_nb_element "cell_code_output" n = false)
         (children_of cc).
Proof.
  apply (@no_outputs_no_output_container text_renderer docutils_host
           package_imports (code_self []) (code_token 0 None) empty_state).
  reflexivity.
Defined.

(** C7 on a cell with two stdout chunks, a figure and a stderr chunk, with
    [merge_streams] on: the blocks follow the three coalesced outputs. *)
Lemma cell_nodes_in_order_witness :
  exists k,
    current_node
      (snd (@render_nb_cell_code_outputs text_renderer docutils_host
              package_imports merging_self (code_token 0 None) empty_state))
    = flat_map
        (fun o =>
           current_node
             (snd (@render_output text_renderer docutils_host package_imports
                     merging_self (code_token 0 None) 0 3
                     (CStrs three_priorities) o empty_state)))
        (take k [stream_output "stdout" "ab";
                 display_output "display_data" plain_and_png;
                 stream_output "stderr" "x"])
    /\ (fst (@render_nb_cell_code_outputs text_renderer docutils_host
               package_imports merging_self (code_token 0 None) empty_state)
        = inr tt -> k = 3%nat).
Proof.
  exact (proj2 (@cell_nodes_in_order text_renderer docutils_host
                  package_imports merging_self (code_token 0 None) empty_state)
           3 _ (CBool true) (CStrs three_priorities)
           eq_refl eq_refl eq_refl eq_refl).
Defined.


(** C9 on a run with valid settings: the trace ends with the write of the
    UTF-8 bytes of the serialized notebook. *)
Lemma parse_writes_rendered_notebook_witness :
  fst (@parse dict_env "{}" "notebook.ipynb" ∅ []) = inr tt
  /\ snd (@parse dict_env "{}" "notebook.ipynb" ∅ [])
     = [register_directive "code-cell"; register_directive "raw-cell";
        write_file ["rendered.ipynb"] [123; 34; 195; 169; 34; 58; 49; 125] true].
Proof.
  split; [|reflexivity].
  apply (@parse_writes_rendered_notebook dict_env "{}" "notebook.ipynb" ∅ []).
  eexists ∅, default_nb_config, _, _, _, _, _, _, _, _, _, _.
  repeat (split; [reflexivity|]). reflexivity.
Defined.

(** ** The further properties on concrete inputs *)

(** X1 on a stdout chunk, an error and a stderr chunk. *)
Lemma textual_outputs_render_in_order_witness :
  for_each
    (render_output (code_self []) (code_token 0 None) 0 3
       (CStrs three_priorities))
    [stream_output "stdout" "a"; error_output; stream_output "stderr" "b"]
    empty_state
  = (inr tt,
     {| current_node :=
          add_line_and_source_path_r "notebook.ipynb" (code_token 0 None)
            (render_stdout (stream_output "stdout" "a") 0 3
             ++ render_error error_output 0 3
             ++ render_stderr (stream_output "stderr" "b") 0 3);
        reported := [] |}).
Proof.
  apply (@textual_outputs_render_in_order text_renderer docutils_host
           package_imports (code_self []) (code_token 0 None) 0 3
           (CStrs three_priorities)
           [stream_output "stdout" "a"; error_output;
            stream_output "stderr" "b"]
           empty_state).
  repeat constructor.
Defined.

(** X2 on a sequence with every kind of output, one of them unsupported. *)
Lemma well_formed_outputs_never_raise_witness :
  fst (for_each
         (render_output (code_self []) (code_token 0 None) 0 3
            (CStrs three_priorities))
         [stream_output "stdin" "?"; error_output;
          display_output "display_data" plain_and_png; unsupported_output]
         empty_state)
  = inr tt.
Proof.
  apply (@well_formed_outputs_never_raise text_renderer docutils_host
           package_imports (code_self []) (code_token 0 None) 0 3
           (CStrs three_priorities) three_priorities).
  - reflexivity.
  - repeat constructor; (discriminate || (simpl; eauto)).
Defined.

(** X3 on a nameless stream between two named ones. *)
Lemma nameless_stream_stops_rendering_witness :
  for_each
    (render_output (code_self []) (code_token 0 None) 0 3
       (CStrs three_priorities))
    ([stream_output "stdout" "a"] ++ nameless_stream
       :: [stream_output "stderr" "b"])
    empty_state
  = (inl (AttributeError "name"),
     {| current_node :=
          add_line_and_source_path_r "notebook.ipynb" (code_token 0 None)
            (render_stdout (stream_output "stdout" "a") 0 3);
        reported := [] |}).
Proof.
  rewrite (@nameless_stream_stops_rendering text_renderer docutils_host
             package_imports (code_self []) (code_token 0 None) 0 3
             (CStrs three_priorities) nameless_stream
             [stream_output "stdout" "a"] [stream_output "stderr" "b"]
             empty_state eq_refl eq_refl).
  reflexivity.
Defined.

(** X4 on an execute_result without data, under a non-empty priority. *)
Lemma rich_output_without_data_witness :
  render_output (code_self []) (code_token 0 None) 0 3
    (CStrs three_priorities) dataless_result empty_state
  = (inl (KeyError "data"), empty_state).
Proof.
  apply (@rich_output_without_data text_renderer docutils_host
           package_imports (code_self []) (code_token 0 None) 0 3
           (CStrs three_priorities) three_priorities dataless_result
           empty_state eq_refl eq_refl eq_refl).
  discriminate.
Defined.

(** X5 on a priority that is [None]: a figure raises, a stream does not
    notice. *)
Lemma mime_priority_only_for_rich_outputs_witness :
  render_output (code_self []) (code_token 0 None) 0 3 CNone
    (display_output "display_data" plain_and_png) empty_state
  = (inl (TypeError ["'NoneType' object is not iterable"]), empty_state)
  /\ render_output (code_self []) (code_token 0 None) 0 3 CNone
       (stream_output "stdout" "a") empty_state
     = render_output (code_self []) (code_token 0 None) 0 3
         (CStrs three_priorities) (stream_output "stdout" "a") empty_state.
Proof.
  split.
  - apply (proj2 (@mime_priority_only_for_rich_outputs text_renderer
                    docutils_host package_imports (code_self [])
                    (code_token 0 None) 0 3
                    (display_output "display_data" plain_and_png) empty_state)
             eq_refl CNone _ eq_refl).
  - apply (proj1 (@mime_priority_only_for_rich_outputs text_renderer
                    docutils_host package_imports (code_self [])
                    (code_token 0 None) 0 3
                    (stream_output "stdout" "a") empty_state)
             eq_refl).
Defined.

(** X6 under the default configuration, where [merge_streams] is off. *)
Lemma merge_streams_off_skips_coalescing_witness :
  @render_nb_cell_code_outputs text_renderer docutils_host package_imports
    (code_self [stream_output "stdout" "a"; stream_output "stdout" "b"])
    (code_token 0 None) empty_state
  = @render_nb_cell_code_outputs text_renderer docutils_host dropping_imports
      (code_self [stream_output "stdout" "a"; stream_output "stdout" "b"])
      (code_token 0 None) empty_state.
Proof.
  apply (merge_streams_off_skips_coalescing text_renderer docutils_host
           package_imports dropping_imports
           (code_self [stream_output "stdout" "a"; stream_output "stdout" "b"])
           (code_token 0 None) (CBool false) empty_state);
    reflexivity.
Defined.

(** X8 under the default configuration, on a cell tagged [hide]. *)
Lemma source_container_is_emitted_witness :
  exists cc source_container others,
    current_node
      (snd (render_nb_cell_code (code_self [])
              (code_token 0 (Some ["hide"])) empty_state))
    = [cc]
    /\ children_of cc = source_container :: others
    /\ nb_element source_container = Some "cell_code_source"
    /\ children_of source_container
       = [add_line_and_source_path "notebook.ipynb"
            (code_token 0 (Some ["hide"]))
            (create_highlighted_code_block "print(1)" (Some "python")
               (CBool false) "notebook.ipynb" 3)].
Proof.
  apply (@source_container_is_emitted text_renderer docutils_host
           package_imports (code_self []) (code_token 0 (Some ["hide"]))
           (CBool false) (CBool false) 3 empty_state);
    try reflexivity.
  - intros Hin. by apply str_in_elem_of in Hin.
  - intros Hin. by apply str_in_elem_of in Hin.
Defined.

(** X9 under the default configuration, on a cell with one output and the
    source removed by tag. *)
Lemma output_container_is_emitted_witness :
  exists cc others output_container,
    current_node
      (snd (render_nb_cell_code (code_self [stream_output "stdout" "1"])
              (code_token 0 (Some ["remove-input"])) empty_state))
    = [cc]
    /\ children_of cc = others ++ [output_container]
    /\ nb_element output_container = Some "cell_code_output"
    /\ children_of output_container
       = current_node
           (snd (render_nb_cell_code_outputs
                   (code_self [stream_output "stdout" "1"])
                   (code_token 0 (Some ["remove-input"])) empty_state))
    /\ fst (render_nb_cell_code (code_self [stream_output "stdout" "1"])
              (code_token 0 (Some ["remove-input"])) empty_state)
       = fst (render_nb_cell_code_outputs
                (code_self [stream_output "stdout" "1"])
                (code_token 0 (Some ["remove-input"])) empty_state).
Proof.
  apply (@output_container_is_emitted text_renderer docutils_host
           package_imports (code_self [stream_output "stdout" "1"])
           (code_token 0 (Some ["remove-input"]))
           (CBool false) (CBool false) 3 [stream_output "stdout" "1"]
           (CBool false) empty_state);
    try reflexivity.
  - discriminate.
  - intros Hin. by apply str_in_elem_of in Hin.
  - intros Hin. by apply str_in_elem_of in Hin.
Defined.

(** X10 under an empty configuration. *)
Lemma missing_remove_code_source_raises_witness :
  fst (render_nb_cell_code (renderer_of ∅ [code_cell []]) (code_token 0 None)
         empty_state)
  = inl (KeyError "remove_code_source").
Proof.
  destruct (@missing_remove_code_source_raises text_renderer docutils_host
              package_imports (renderer_of ∅ [code_cell []])
              (code_token 0 None) empty_state)
    as (cc & Hrun & _); [reflexivity|].
  by rewrite Hrun.
Defined.

(** X11 on a configuration that only holds the two source options. *)
Lemma cell_without_outputs_reads_source_options_only_witness :
  render_nb_cell_code (code_self []) (code_token 0 None) empty_state
  = render_nb_cell_code
      (renderer_of (list_to_map [("remove_code_source", CBool false);
                                 ("number_source_lines", CBool false)])
         [code_cell []])
      (code_token 0 None) empty_state.
Proof.
  apply (@cell_without_outputs_reads_source_options_only text_renderer
           docutils_host package_imports);
    reflexivity.
Defined.

(** X12 on the token of a second cell in a notebook of one. *)
Lemma cell_index_out_of_range_witness :
  exists e cc,
    fst (render_nb_cell_code (code_self [stream_output "stdout" "1"])
           (code_token 1 None) empty_state) = inl e
    /\ current_node
         (snd (render_nb_cell_code (code_self [stream_output "stdout" "1"])
                 (code_token 1 None) empty_state))
       = [cc]
    /\ Forall (fun n => is_nb_element "cell_code_output" n = false)
         (children_of cc).
Proof.
  destruct (@cell_index_out_of_range text_renderer docutils_host
              package_imports (code_self [stream_output "stdout" "1"])
              (code_token 1 None) empty_state)
    as (e & cc & He & Hcc & Hno & _).
  - right. simpl. lia.
  - by exists e, cc.
Defined.

(** X15 on three cells, the second with an index outside the notebook. *)
Lemma cell_containers_follow_call_order_witness :
  fst (for_each (render_nb_cell_code (code_self [stream_output "stdout" "1"]))
         ([code_token 0 None] ++ code_token 5 None :: [code_token 0 None])
         empty_state)
  = inl IndexError.
Proof.
  destruct (@cell_containers_follow_call_order text_renderer docutils_host
              package_imports (code_self [stream_output "stdout" "1"])
              [code_token 0 None] [code_token 0 None] (code_token 5 None)
              empty_state)
    as (containers & _ & _ & _ & Hfail).
  - repeat constructor.
  - destruct (Hfail IndexError) as (cc & _ & _ & Hfst & _);
      [reflexivity | exact Hfst].
Defined.

(** X16 on a text with a two-byte and a four-byte code point. *)
Lemma utf8_encode_outcome_witness :
  exists bytes,
    utf8_encode [0x7B; 0xE9; 0x1F600; 0x7D] = inr bytes
    /\ Forall (fun b => 0 <= b < 256) bytes
    /\ (4 <= length bytes <= 16)%nat.
Proof.
  destruct (utf8_encode_outcome [0x7B; 0xE9; 0x1F600; 0x7D])
    as [[_ Hfail] | (_ & bytes & Hbytes)].
  - repeat constructor; lia.
  - discriminate Hfail.
  - by exists bytes.
Defined.

(** X18 on a constructor that raises a [KeyError]. *)
Lemma other_configuration_errors_propagate_witness :
  @parse (dict_env_with (fun _ => inl (KeyError "myst_enable_extensions"))
            (@nbformat_writes dict_env))
    "{}" "notebook.ipynb" ∅ []
  = (inl (KeyError "myst_enable_extensions"),
     [register_directive "code-cell"; register_directive "raw-cell"]).
Proof.
  apply (@other_configuration_errors_propagate
           (dict_env_with (fun _ => inl (KeyError "myst_enable_extensions"))
              (@nbformat_writes dict_env))
           "{}" "notebook.ipynb" ∅ [] (KeyError "myst_enable_extensions"));
    reflexivity.
Defined.

(** X19 on a serializer whose text holds the surrogate U+D83D. *)
Lemma unencodable_notebook_is_not_written_witness :
  @parse (dict_env_with (@create_md_config dict_env)
            (fun _ => inr [0x22; 0xD83D; 0x22]))
    "{}" "notebook.ipynb" ∅ []
  = (inl UnicodeEncodeError,
     [register_directive "code-cell"; register_directive "raw-cell"]).
Proof.
  etransitivity.
  { eapply (@unencodable_notebook_is_not_written
             (dict_env_with (@create_md_config dict_env)
                (fun _ => inr [0x22; 0xD83D; 0x22]))
             "{}" "notebook.ipynb" ∅ [] ∅ default_nb_config
             _ _ None tt text_renderer _ _ _ [0x22; 0xD83D; 0x22]);
      try reflexivity.
    - repeat constructor; lia.
    - right. left. lia. }
  reflexivity.
Defined.
